(** * auto_bluetooth_wifi_sharer.py: a shallow embedding

    The script reacts to BlueZ D-Bus notifications.  Each notification runs
    a handler of [AutoBluetoothWiFiSharer] to completion: the handler
    records the peer in [connected_devices], tries to obtain WiFi
    credentials from it and, if it has some, rewrites the wpa_supplicant
    configuration, restarts networking, checks [iwconfig] and stores the
    credentials in /etc/wifi_credentials.json.

    The embedding is a state and exception monad over a [World] that holds
    the object's mutable attribute, the files the script opens itself, a
    clock advanced by [time.sleep] and the trace of the effects performed.
    Everything outside the Python process (exit status and output of the
    commands run through [subprocess], I/O errors of [open] and [write])
    is read from an environment [Env]. *)

From Stdlib Require Import ZArith Ascii String List Bool Lia.
From stdpp Require Import base gmap strings list.

Local Open Scope Z_scope.
Local Open Scope string_scope.
Local Open Scope list_scope.

(** ** Python values *)

(** The double quote and the line feed, written by code point. *)
Definition dq : string := String "034"%char EmptyString.
Definition nl : string := String "010"%char EmptyString.

(** [needle in hay] on Python strings. *)
Fixpoint str_in (needle hay : string) : bool :=
  String.prefix needle hay ||
  match hay with
  | EmptyString => false
  | String _ rest => str_in needle rest
  end.

(** Truth value of a [str]: only the empty string is false. *)
Definition truthy_str (s : string) : bool :=
  match s with
  | EmptyString => false
  | String _ _ => true
  end.

(** Truth value of the result of [dict.get(key)]: [None] is false. *)
Definition truthy_get (v : option string) : bool :=
  match v with
  | None => false
  | Some s => truthy_str s
  end.

(** Truth value of an [Optional[Dict[str, str]]]: [None] and the empty
    dictionary are false. *)
Definition truthy_dict (d : option (gmap string string)) : bool :=
  match d with
  | None => false
  | Some m => negb (bool_decide (m = ∅))
  end.

(** Values that [json.dump] is given here.  The source stores strings only;
    booleans are there to write down the record the specification names. *)
Inductive pyval :=
| PStr (s : string)
| PBool (b : bool).

(** ** json.dump with its default settings

    [ensure_ascii=True], separators [", "] and [": "].  A [str] is a
    sequence of code points; the model covers the code points below 256,
    one per [ascii]. *)

Definition hex_digit (n : N) : ascii :=
  if (n <? 10)%N then ascii_of_N (48 + n) else ascii_of_N (87 + n).

Definition backslash : string := String "092"%char EmptyString.

(** One character through [ESCAPE_ASCII] and [ESCAPE_DCT] of json.encoder. *)
Definition escape_char (c : ascii) : string :=
  let n := N_of_ascii c in
  if (n =? 92)%N then backslash +:+ backslash
  else if (n =? 34)%N then backslash +:+ dq
  else if (n =? 8)%N then backslash +:+ "b"
  else if (n =? 12)%N then backslash +:+ "f"
  else if (n =? 10)%N then backslash +:+ "n"
  else if (n =? 13)%N then backslash +:+ "r"
  else if (n =? 9)%N then backslash +:+ "t"
  else if ((32 <=? n) && (n <=? 126))%N then String c EmptyString
  else backslash +:+ "u00" +:+
       String (hex_digit (n / 16)) (String (hex_digit (n mod 16)) EmptyString).

Fixpoint escape_str (s : string) : string :=
  match s with
  | EmptyString => EmptyString
  | String c rest => escape_char c +:+ escape_str rest
  end.

Definition py_encode_basestring_ascii (s : string) : string :=
  dq +:+ escape_str s +:+ dq.

Definition json_value (v : pyval) : string :=
  match v with
  | PStr s => py_encode_basestring_ascii s
  | PBool true => "true"
  | PBool false => "false"
  end.

Fixpoint json_items (items : list (string * pyval)) : string :=
  match items with
  | [] => ""
  | [(k, v)] => py_encode_basestring_ascii k +:+ ": " +:+ json_value v
  | (k, v) :: rest =>
      py_encode_basestring_ascii k +:+ ": " +:+ json_value v +:+ ", " +:+
      json_items rest
  end.

(** The text [json.dump] writes for a dictionary, keys in insertion order. *)
Definition json_dumps (d : list (string * pyval)) : string :=
  "{" +:+ json_items d +:+ "}".

(** ** Exceptions *)

Inductive exn :=
| CalledProcessError (returncode : Z) (cmd : list string)
| OSError (errno : Z) (filename : string)
| KeyError (key : string)
| TypeError
| KeyboardInterrupt
| SystemExit (code : Z).

(** [isinstance(e, Exception)]: KeyboardInterrupt and SystemExit derive
    from BaseException only. *)
Definition is_Exception (e : exn) : bool :=
  match e with
  | KeyboardInterrupt | SystemExit _ => false
  | _ => true
  end.

(** [isinstance(e, subprocess.CalledProcessError)]. *)
Definition is_CalledProcessError (e : exn) : bool :=
  match e with
  | CalledProcessError _ _ => true
  | _ => false
  end.

(** ** The world *)

Inductive Level := INFO | ERROR.

(** What the process does, in order.  A log line whose text ends with a
    formatted exception keeps the exception itself. *)
Inductive Event :=
| EvLog (lvl : Level) (msg : string) (exc : option exn)
| EvSleep (secs : Z)
| EvRun (argv : list string)
| EvOpenW (path : string)
| EvWrite (path : string) (data : string).

Record World := mkWorld {
  connected_devices : gset string;   (* self.connected_devices *)
  files : gmap string string;        (* files opened by the script *)
  now : Z;                           (* seconds, advanced by time.sleep *)
  trace : list Event
}.

(** [AutoBluetoothWiFiSharer.__init__]: [self.config_file] is assigned once
    and never again, [self.connected_devices] starts empty. *)
Definition config_file : string := "/etc/wifi_credentials.json".

Definition init (fs : gmap string string) (t : Z) : World :=
  mkWorld ∅ fs t [].

Definition emit (ev : Event) (w : World) : World :=
  mkWorld (connected_devices w) (files w) (now w) (trace w ++ [ev]).

Definition set_files (fs : gmap string string) (w : World) : World :=
  mkWorld (connected_devices w) fs (now w) (trace w).

Definition set_devices (s : gset string) (w : World) : World :=
  mkWorld s (files w) (now w) (trace w).

Definition advance (secs : Z) (w : World) : World :=
  mkWorld (connected_devices w) (files w) (now w + secs) (trace w).

(** ** The environment *)

Inductive ProcOutcome :=
| Exited (returncode : Z) (stdout : string)
| SpawnError (errno : Z).

Record Env := mkEnv {
  (* the command run at a given time: exit status and captured output,
     or the errno with which it could not be started *)
  proc : Z -> list string -> ProcOutcome;
  (* errno of open(path, 'w') at a given time, if it fails *)
  open_errno : Z -> string -> option Z;
  (* errno of writing to path at a given time, if it fails *)
  write_errno : Z -> string -> option Z
}.

Record CompletedProcess := mkCompleted {
  returncode : Z;
  stdout : string
}.

(** ** The monad *)

Inductive Result (A : Type) :=
| Returned (a : A)
| Raised (e : exn).
Arguments Returned {A} a.
Arguments Raised {A} e.

Definition M (A : Type) : Type := World -> Result A * World.

Definition ret {A} (a : A) : M A := fun w => (Returned a, w).

Definition raise {A} (e : exn) : M A := fun w => (Raised e, w).

Definition bind {A B} (m : M A) (k : A -> M B) : M B :=
  fun w =>
    match m w with
    | (Returned a, w') => k a w'
    | (Raised e, w') => (Raised e, w')
    end.

(** [try: body except C as e: handler]: [catches e] is [isinstance(e, C)];
    the handler starts in the world the body left. *)
Definition try_except {A} (body : M A) (catches : exn -> bool)
    (handler : exn -> M A) : M A :=
  fun w =>
    match body w with
    | (Returned a, w') => (Returned a, w')
    | (Raised e, w') => if catches e then handler e w' else (Raised e, w')
    end.

(** The monad is registered with stdpp, whose notations [x ← m; k] and
    [m ;; k] are used below. *)
#[global] Instance M_ret : MRet M := @ret.
#[global] Instance M_bind : MBind M := fun A B k m => bind m k.

(** ** Primitives *)

Definition logger_info (msg : string) : M unit :=
  fun w => (Returned tt, emit (EvLog INFO msg None) w).

Definition logger_error (msg : string) (exc : option exn) : M unit :=
  fun w => (Returned tt, emit (EvLog ERROR msg exc) w).

Definition time_sleep (secs : Z) : M unit :=
  fun w => (Returned tt, advance secs (emit (EvSleep secs) w)).

(** [self.connected_devices.add(path)]. *)
Definition devices_add (path : string) : M unit :=
  fun w => (Returned tt, set_devices ({[path]} ∪ connected_devices w) w).

(** [path in self.connected_devices]. *)
Definition devices_mem (path : string) : M bool :=
  fun w => (Returned (bool_decide (path ∈ connected_devices w)), w).

(** [self.connected_devices.remove(path)]: KeyError when absent. *)
Definition devices_remove (path : string) : M unit :=
  fun w =>
    if bool_decide (path ∈ connected_devices w)
    then (Returned tt, set_devices (connected_devices w ∖ {[path]}) w)
    else (Raised (KeyError path), w).

(** [d[key]] on a dictionary. *)
Definition dict_getitem (d : gmap string string) (key : string) : M string :=
  match d !! key with
  | Some v => ret v
  | None => raise (KeyError key)
  end.

Section Primitives.
Variable env : Env.

(** [subprocess.run(argv, check=check, ...)]. *)
Definition subprocess_run (argv : list string) (check : bool)
  : M CompletedProcess :=
  fun w =>
    let w' := emit (EvRun argv) w in
    match proc env (now w) argv with
    | SpawnError errno => (Raised (OSError errno (hd "" argv)), w')
    | Exited rc out =>
        if check && negb (rc =? 0)%Z
        then (Raised (CalledProcessError rc argv), w')
        else (Returned (mkCompleted rc out), w')
    end.

(** [open(path, 'w')]: the file is truncated as soon as it is opened. *)
Definition open_w (path : string) : M unit :=
  fun w =>
    match open_errno env (now w) path with
    | Some errno => (Raised (OSError errno path), w)
    | None =>
        (Returned tt, set_files (<[path := ""]> (files w)) (emit (EvOpenW path) w))
    end.

(** Writing [data] through the file object opened on [path]. *)
Definition file_write (path data : string) : M unit :=
  fun w =>
    match write_errno env (now w) path with
    | Some errno => (Raised (OSError errno path), w)
    | None =>
        (Returned tt,
         set_files (<[path := default "" (files w !! path) +:+ data]> (files w))
                   (emit (EvWrite path data) w))
    end.

(** Leaving the [with] block closes the file. *)
Definition file_close (path : string) : M unit := ret tt.

(** The steps of [with open(path, 'w') as f: f.write(data)], one per
    statement boundary. *)
Definition with_open_w_steps (path data : string) : list (M unit) :=
  [open_w path; file_write path data; file_close path].

Fixpoint run_steps (steps : list (M unit)) : M unit :=
  match steps with
  | [] => ret tt
  | s :: rest => s ;; run_steps rest
  end.

Definition with_open_w (path data : string) : M unit :=
  run_steps (with_open_w_steps path data).

End Primitives.

(** [credentials[key]] on an [Optional[Dict[str, str]]]: [None] is not
    subscriptable. *)
Definition subscript (credentials : option (gmap string string))
    (key : string) : M string :=
  match credentials with
  | Some d => dict_getitem d key
  | None => raise TypeError
  end.

(** [credentials.get(key)] once [credentials] is known to be true. *)
Definition get (credentials : option (gmap string string))
    (key : string) : option string :=
  match credentials with
  | Some d => d !! key
  | None => None
  end.

(** The condition of line 215. *)
Definition credentials_found (credentials : option (gmap string string)) : bool :=
  truthy_dict credentials && truthy_get (get credentials "ssid")
  && truthy_get (get credentials "password").

(** ** AutoBluetoothWiFiSharer *)

(** The type of [simulate_credential_extraction], the method that
    [extract_wifi_credentials] calls through [self]. *)
Definition Extractor : Type :=
  string -> string -> M (option (gmap string string)).

(** [simulate_credential_extraction] *)
Definition simulate_credential_extraction : Extractor :=
  fun device_path device_name =>
    try_except
      (time_sleep 2 ;;
       logger_info "Credential extraction simulation complete" ;;
       mret None)
      is_Exception
      (fun e =>
         logger_error "Error in credential extraction simulation: " (Some e) ;;
         mret None).

(** The f-string written to /tmp/wpa_supplicant.conf. *)
Definition wpa_config (ssid password : string) : string :=
  nl +:+
  "ctrl_interface=/var/run/wpa_supplicant" +:+ nl +:+
  "ctrl_interface_group=0" +:+ nl +:+
  "update_config=1" +:+ nl +:+
  nl +:+
  "network={" +:+ nl +:+
  "    ssid=" +:+ dq +:+ ssid +:+ dq +:+ nl +:+
  "    psk=" +:+ dq +:+ password +:+ dq +:+ nl +:+
  "    key_mgmt=WPA-PSK" +:+ nl +:+
  "    scan_ssid=1" +:+ nl +:+
  "}" +:+ nl.

Definition tmp_conf : string := "/tmp/wpa_supplicant.conf".

Definition cp_argv : list string :=
  ["sudo"; "cp"; tmp_conf; "/etc/wpa_supplicant/wpa_supplicant.conf"].

Definition restart_argv : list string :=
  ["sudo"; "systemctl"; "restart"; "networking"].

Definition iwconfig_argv : list string := ["iwconfig"; "wlan0"].

(** The test of line 295 on the output of iwconfig. *)
Definition reports_association (out : string) : bool :=
  str_in "ESSID:" out && negb (str_in "off/any" out).

(** The dictionary of line 299. *)
Definition credentials_dict (ssid password : string) : list (string * pyval) :=
  [("ssid", PStr ssid); ("password", PStr password)].

Section Sharer.
Variable env : Env.

(** [connect_to_wifi] *)
Definition connect_to_wifi (ssid password : string) : M bool :=
  try_except
    (with_open_w env tmp_conf (wpa_config ssid password) ;;
     subprocess_run env cp_argv true ;;
     subprocess_run env restart_argv true ;;
     time_sleep 10 ;;
     result ← subprocess_run env iwconfig_argv false ;
     if reports_association (stdout result) then
       logger_info ("Successfully connected to WiFi: " +:+ ssid) ;;
       with_open_w env config_file (json_dumps (credentials_dict ssid password)) ;;
       mret true
     else
       logger_error "Failed to connect to WiFi" None ;;
       mret false)
    is_CalledProcessError
    (fun e =>
       logger_error "Error connecting to WiFi: " (Some e) ;;
       mret false).

(** [extract_wifi_credentials], with the method it calls at line 213 as
    a parameter. *)
Definition extract_wifi_credentials_with (sim : Extractor)
    (device_path device_name : string) : M bool :=
  try_except
    (logger_info ("Attempting to extract WiFi credentials from " +:+
                  device_name +:+ "...") ;;
     credentials ← sim device_path device_name ;
     if credentials_found credentials then
       logger_info ("WiFi credentials extracted from " +:+ device_name +:+ "!") ;;
       ssid ← subscript credentials "ssid" ;
       logger_info ("Network: " +:+ ssid) ;;
       ssid ← subscript credentials "ssid" ;
       password ← subscript credentials "password" ;
       ok ← connect_to_wifi ssid password ;
       if (ok : bool) then
         logger_info "Successfully connected to WiFi network!" ;;
         mret true
       else
         logger_error "Failed to connect to WiFi network" None ;;
         mret false
     else
       logger_info ("No WiFi credentials found on " +:+ device_name) ;;
       mret false)
    is_Exception
    (fun e =>
       logger_error "Error extracting WiFi credentials: " (Some e) ;;
       mret false).

Definition extract_wifi_credentials : string -> string -> M bool :=
  extract_wifi_credentials_with simulate_credential_extraction.

(** [on_device_connected], the receiver of InterfacesAdded. *)
Definition on_device_connected_with (sim : Extractor) (path : string)
    (interfaces : gmap string (gmap string string)) : M unit :=
  try_except
    (match interfaces !! "org.bluez.Device1" with
     | Some device =>
         let device_name := default "Unknown Device" (device !! "Name") in
         let device_address := default "Unknown" (device !! "Address") in
         logger_info ("Device connected: " +:+ device_name +:+
                      " (" +:+ device_address +:+ ")") ;;
         devices_add path ;;
         extract_wifi_credentials_with sim path device_name ;;
         mret tt
     | None => mret tt
     end)
    is_Exception
    (fun e => logger_error "Error handling device connection: " (Some e)).

Definition on_device_connected
  : string -> gmap string (gmap string string) -> M unit :=
  on_device_connected_with simulate_credential_extraction.

End Sharer.

(** [on_device_disconnected], the receiver of InterfacesRemoved. *)
Definition on_device_disconnected (path : string)
    (interfaces : list string) : M unit :=
  try_except
    (present ← devices_mem path ;
     if (present : bool) then
       logger_info ("Device disconnected: " +:+ path) ;;
       devices_remove path
     else mret tt)
    is_Exception
    (fun e => logger_error "Error handling device disconnection: " (Some e)).

(** ** Signal delivery

    [setup_bluetooth_monitoring] subscribes the two handlers and
    [mainloop.run()] calls them, one notification after the other, each to
    completion. *)
Inductive Signal :=
| InterfacesAdded (path : string) (interfaces : gmap string (gmap string string))
| InterfacesRemoved (path : string) (interfaces : list string).

Definition deliver (env : Env) (sim : Extractor) (s : Signal) : M unit :=
  match s with
  | InterfacesAdded path interfaces =>
      on_device_connected_with env sim path interfaces
  | InterfacesRemoved path interfaces =>
      on_device_disconnected path interfaces
  end.

Fixpoint dispatch (env : Env) (sim : Extractor) (signals : list Signal)
    : M unit :=
  match signals with
  | [] => mret tt
  | s :: rest => deliver env sim s ;; dispatch env sim rest
  end.

(** ** Observations on a run *)

(** The content of the credential store. *)
Definition store (w : World) : option string := files w !! config_file.

Definition is_query (ev : Event) : bool :=
  match ev with
  | EvRun argv => bool_decide (argv = iwconfig_argv)
  | _ => false
  end.

(** How many times the connectivity query was run. *)
Definition queries (tr : list Event) : nat := length (List.filter is_query tr).

(** The sleeps of a run, in order. *)
Fixpoint sleeps (tr : list Event) : list Z :=
  match tr with
  | [] => []
  | EvSleep n :: rest => n :: sleeps rest
  | _ :: rest => sleeps rest
  end.

Definition is_attempt (ev : Event) : bool :=
  match ev with
  | EvLog INFO msg None => String.prefix "Attempting to extract WiFi credentials from " msg
  | _ => false
  end.

(** How many times an extraction was started. *)
Definition attempts (tr : list Event) : nat := length (List.filter is_attempt tr).

(** Commands run and files opened or written: what provisioning does to
    the system. *)
Definition is_system_effect (ev : Event) : bool :=
  match ev with
  | EvRun _ | EvOpenW _ | EvWrite _ _ => true
  | _ => false
  end.

Definition system_effects (tr : list Event) : list Event :=
  List.filter is_system_effect tr.

(** The events a run added to the trace of the world it started in. *)
Definition new_events (w w' : World) : list Event :=
  drop (length (trace w)) (trace w').

(** Opening or writing the credential store. *)
Definition touches_store (ev : Event) : bool :=
  match ev with
  | EvOpenW path | EvWrite path _ => bool_decide (path = config_file)
  | _ => false
  end.

(** A computation that returns normally from every world. *)
Definition returns {A} (m : M A) : Prop :=
  forall w, exists a w', m w = (Returned a, w').

(** A computation that raises nothing but instances of Exception. *)
Definition errors_only {A} (m : M A) : Prop :=
  forall w e w', m w = (Raised e, w') -> is_Exception e = true.

(** The first line [extract_wifi_credentials] logs. *)
Definition attempt_line (device_name : string) : Event :=
  EvLog INFO ("Attempting to extract WiFi credentials from " +:+
              device_name +:+ "...") None.

(** What one delivery of InterfacesAdded for a device adds to the trace
    when the extraction finds nothing. *)
Definition exchange_events (device : gmap string string) : list Event :=
  let device_name := default "Unknown Device" (device !! "Name") in
  let device_address := default "Unknown" (device !! "Address") in
  [EvLog INFO ("Device connected: " +:+ device_name +:+
               " (" +:+ device_address +:+ ")") None;
   attempt_line device_name;
   EvSleep 2;
   EvLog INFO "Credential extraction simulation complete" None;
   EvLog INFO ("No WiFi credentials found on " +:+ device_name) None].

(** ** What the environment does to one call of connect_to_wifi started
    at time [t] *)

Definition exits_zero (o : ProcOutcome) : bool :=
  match o with
  | Exited rc _ => (rc =? 0)%Z
  | SpawnError _ => false
  end.

(** The command runs and exits with a non-zero status: with [check=True]
    this is CalledProcessError. *)
Definition exits_nonzero (o : ProcOutcome) : bool :=
  match o with
  | Exited rc _ => negb (rc =? 0)%Z
  | SpawnError _ => false
  end.

Definition writable (env : Env) (t : Z) (path : string) : bool :=
  bool_decide (open_errno env t path = None) &&
  bool_decide (write_errno env t path = None).

(** The copy or the restart fails. *)
Definition apply_fails (env : Env) (t : Z) : bool :=
  writable env t tmp_conf &&
  (exits_nonzero (proc env t cp_argv) ||
   (exits_zero (proc env t cp_argv) && exits_nonzero (proc env t restart_argv))).

(** The configuration is installed and networking restarted. *)
Definition applied (env : Env) (t : Z) : bool :=
  writable env t tmp_conf &&
  exits_zero (proc env t cp_argv) && exits_zero (proc env t restart_argv).

(** What the check made ten seconds later says, if iwconfig can be run. *)
Definition connectivity (env : Env) (t : Z) : option bool :=
  match proc env (t + 10) iwconfig_argv with
  | Exited _ out => Some (reports_association out)
  | SpawnError _ => None
  end.

Definition verify_fails (env : Env) (t : Z) : bool :=
  applied env t && bool_decide (connectivity env t = Some false).

Definition verified (env : Env) (t : Z) : bool :=
  applied env t && bool_decide (connectivity env t = Some true).

(** The world after the first [k] steps of a step list: where a crash or a
    reader between two steps finds it. *)
Definition after_steps (k : nat) (steps : list (M unit)) (w : World) : World :=
  snd (run_steps (take k steps) w).

(** The record of scenario A of the specification. *)
Definition spec_stored_record : list (string * pyval) :=
  [("networkName", PStr "HomeNet"); ("secret", PStr "s3cret123");
   ("verified", PBool true)].

(** ** Startup: the checks and set-up steps of [run] *)

(** A [try] statement with two [except] clauses, tried in order. *)
Definition try_except2 {A} (body : M A)
    (catches1 : exn -> bool) (handler1 : exn -> M A)
    (catches2 : exn -> bool) (handler2 : exn -> M A) : M A :=
  fun w =>
    match body w with
    | (Returned a, w') => (Returned a, w')
    | (Raised e, w') =>
        if catches1 e then handler1 e w'
        else if catches2 e then handler2 e w'
        else (Raised e, w')
    end.

(** [isinstance(e, KeyboardInterrupt)]. *)
Definition is_KeyboardInterrupt (e : exn) : bool :=
  match e with
  | KeyboardInterrupt => true
  | _ => false
  end.

(** [sys.exit(code)]. *)
Definition sys_exit {A} (code : Z) : M A := raise (SystemExit code).

(** The list of line 47. *)
Definition required_packages : list string :=
  ["bluez"; "bluez-tools"; "wpasupplicant"; "python3-dbus"; "python3-gi"].

Definition dpkg_argv (package : string) : list string :=
  ["dpkg"; "-s"; package].

(** The loop of lines 50-55, with [missing_packages] as accumulator. *)
Fixpoint check_packages (env : Env) (packages missing_packages : list string)
    : M (list string) :=
  match packages with
  | [] => mret missing_packages
  | package :: rest =>
      missing ← try_except
                  (subprocess_run env (dpkg_argv package) true ;;
                   mret missing_packages)
                  is_CalledProcessError
                  (fun _ => mret (missing_packages ++ [package])) ;
      check_packages env rest missing
  end.

(** [check_dependencies] *)
Definition check_dependencies (env : Env) : M bool :=
  missing_packages ← check_packages env required_packages [] ;
  match missing_packages with
  | _ :: _ =>
      logger_error ("Missing packages: " +:+ String.concat ", " missing_packages)
        None ;;
      logger_info ("Install with: sudo apt update && sudo apt install " +:+
                   String.concat " " missing_packages) ;;
      mret false
  | [] => mret true
  end.

(** [self.bluetooth_service_name], assigned once in [__init__]. *)
Definition bluetooth_service_name : string := "PiWiFiSetup".

(** The f-string written to /tmp/bluetooth.conf. *)
Definition bluetooth_config : string :=
  nl +:+
  "[General]" +:+ nl +:+
  "Name = " +:+ bluetooth_service_name +:+ nl +:+
  "Class = 0x000100" +:+ nl +:+
  "DiscoverableTimeout = 0" +:+ nl +:+
  "PairableTimeout = 0" +:+ nl +:+
  "AutoEnable = true" +:+ nl +:+
  nl +:+
  "[Policy]" +:+ nl +:+
  "AutoEnable = true" +:+ nl +:+
  nl +:+
  "[GATT]" +:+ nl +:+
  "Key = 0000110b-0000-1000-8000-00805f9b34fb" +:+ nl.

Definition bt_conf : string := "/tmp/bluetooth.conf".

Definition bt_stop_argv : list string := ["sudo"; "systemctl"; "stop"; "bluetooth"].
Definition bt_cp_argv : list string :=
  ["sudo"; "cp"; bt_conf; "/etc/bluetooth/main.conf"].
Definition bt_start_argv : list string := ["sudo"; "systemctl"; "start"; "bluetooth"].
Definition bt_enable_argv : list string := ["sudo"; "systemctl"; "enable"; "bluetooth"].
Definition bt_discoverable_argv : list string :=
  ["sudo"; "bluetoothctl"; "discoverable"; "on"].
Definition bt_pairable_argv : list string :=
  ["sudo"; "bluetoothctl"; "pairable"; "on"].

(** [setup_bluetooth] *)
Definition setup_bluetooth (env : Env) : M bool :=
  try_except
    (subprocess_run env bt_stop_argv false ;;
     with_open_w env bt_conf bluetooth_config ;;
     subprocess_run env bt_cp_argv true ;;
     subprocess_run env bt_start_argv true ;;
     subprocess_run env bt_enable_argv true ;;
     subprocess_run env bt_discoverable_argv true ;;
     subprocess_run env bt_pairable_argv true ;;
     time_sleep 3 ;;
     logger_info "Bluetooth service configured successfully" ;;
     mret true)
    is_CalledProcessError
    (fun e => logger_error "Failed to setup Bluetooth: " (Some e) ;; mret false).

(** The attributes [__init__] sets to None and [setup_dbus] assigns:
    whether [self.bus] and [self.mainloop] are set, and [self.adapter]. *)
Record Handles := mkHandles {
  bus : bool;
  mainloop : bool;
  adapter : option string
}.

Definition no_handles : Handles := mkHandles false false None.

(** What the D-Bus calls of [setup_dbus] meet.  A failure carries the text
    of the exception, as [str(e)] gives it. *)
Inductive BusOutcome :=
| BusDown (msg : string)      (* DBusGMainLoop or dbus.SystemBus() raises *)
| ManagerDown (msg : string)  (* the bus is there; get_object or
                                 GetManagedObjects raises *)
| Objects (objects : list (string * gmap string (gmap string string))).
                              (* GetManagedObjects(), in iteration order *)

(** The machine the script is started on. *)
Record Host := mkHost {
  euid : Z;                         (* os.geteuid() *)
  bus_outcome : BusOutcome;
  receiver_fault : option string;   (* add_signal_receiver raising *)
  arriving : list Signal            (* notifications delivered by
                                       mainloop.run() before Ctrl-C *)
}.

(** The loop of lines 130-133: the first object that has the adapter
    interface; without one [self.adapter] keeps its value. *)
Fixpoint find_adapter
    (objects : list (string * gmap string (gmap string string)))
    (current : option string) : option string :=
  match objects with
  | [] => current
  | (path, interfaces) :: rest =>
      if bool_decide (is_Some (interfaces !! "org.bluez.Adapter1"))
      then Some path
      else find_adapter rest current
  end.

(** A managed object without the adapter interface. *)
Definition lacks_adapter (o : string * gmap string (gmap string string)) : Prop :=
  o.2 !! "org.bluez.Adapter1" = None.

(** [setup_dbus]: the result and the attributes as it leaves them.  Every
    exception of its body comes from the D-Bus calls and is caught by its
    [except Exception]. *)
Definition setup_dbus (host : Host) (h : Handles) : M (bool * Handles) :=
  match bus_outcome host with
  | BusDown msg =>
      logger_error ("Failed to setup D-Bus: " +:+ msg) None ;;
      mret (false, h)
  | ManagerDown msg =>
      logger_error ("Failed to setup D-Bus: " +:+ msg) None ;;
      mret (false, mkHandles true true (adapter h))
  | Objects objects =>
      let h' := mkHandles true true (find_adapter objects (adapter h)) in
      if negb (truthy_get (adapter h')) then
        logger_error "No Bluetooth adapter found" None ;;
        mret (false, h')
      else
        logger_info "D-Bus connection established" ;;
        mret (true, h')
  end.

(** [setup_bluetooth_monitoring]: with [self.bus] still None the attribute
    access raises AttributeError, which the [except Exception] logs. *)
Definition setup_bluetooth_monitoring (host : Host) (h : Handles) : M bool :=
  if bus h then
    match receiver_fault host with
    | Some msg =>
        logger_error ("Failed to setup Bluetooth monitoring: " +:+ msg) None ;;
        mret false
    | None =>
        logger_info "Bluetooth monitoring setup complete" ;;
        mret true
    end
  else
    logger_error ("Failed to setup Bluetooth monitoring: " +:+
                  "'NoneType' object has no attribute 'add_signal_receiver'")
      None ;;
    mret false.

(** [self.mainloop.run()]: the subscribed handlers are called for the
    notifications that arrive; nothing in the script quits the loop, which
    ends when Ctrl-C raises KeyboardInterrupt.  Ctrl-C is taken to arrive
    while the loop runs; what is proved of [run] below also holds when it
    arrives earlier, since [run] then returns True as well. *)
Definition mainloop_run (env : Env) (sim : Extractor) (host : Host) : M unit :=
  dispatch env sim (arriving host) ;;
  raise KeyboardInterrupt.

(** [run], with the extraction method as a parameter.  A function that
    ends without [return] gives None. *)
Definition run_with (env : Env) (sim : Extractor) (host : Host) (h : Handles)
    : M (option bool) :=
  logger_info "Starting Auto Bluetooth WiFi Credential Sharer..." ;;
  logger_info "Just connect your phone via Bluetooth - no manual steps needed!" ;;
  try_except2
    (deps ← check_dependencies env ;
     if negb deps then
       logger_error "Dependencies not met. Exiting." None ;;
       mret (Some false)
     else
     bt ← setup_bluetooth env ;
     if negb bt then
       logger_error "Failed to setup Bluetooth" None ;;
       mret (Some false)
     else
     '(db, h1) ← setup_dbus host h ;
     if negb db then
       logger_error "Failed to setup D-Bus" None ;;
       mret (Some false)
     else
     mon ← setup_bluetooth_monitoring host h1 ;
     if negb mon then
       logger_error "Failed to setup Bluetooth monitoring" None ;;
       mret (Some false)
     else
     logger_info "Setup complete! Waiting for phone to connect..." ;;
     logger_info "On your phone:" ;;
     logger_info "1. Go to Bluetooth settings" ;;
     logger_info "2. Connect to 'PiWiFiSetup'" ;;
     logger_info "3. Pi will automatically extract WiFi credentials!" ;;
     if mainloop h1 then
       mainloop_run env sim host ;;
       mret None
     else
       logger_error ("Unexpected error: " +:+
                     "'NoneType' object has no attribute 'run'") None ;;
       mret (Some false))
    is_KeyboardInterrupt
    (fun _ => logger_info "Shutting down..." ;; mret (Some true))
    is_Exception
    (fun e => logger_error "Unexpected error: " (Some e) ;; mret (Some false)).

Definition run (env : Env) (host : Host) : M (option bool) :=
  run_with env simulate_credential_extraction host no_handles.

(** Truth value of what [run] returns: None is false. *)
Definition truthy_optbool (r : option bool) : bool :=
  match r with
  | Some b => b
  | None => false
  end.

(** [AutoBluetoothWiFiSharer()]: a new object tracks no device. *)
Definition new_sharer : M unit :=
  fun w => (Returned tt, set_devices ∅ w).

(** [main] *)
Definition main (env : Env) (host : Host) : M unit :=
  if negb (euid host =? 0)%Z then
    logger_error "This script must be run as root (use sudo)" None ;;
    sys_exit 1
  else
    new_sharer ;;
    success ← run env host ;
    if truthy_optbool success then
      logger_info "Auto Bluetooth WiFi setup completed successfully!" ;;
      sys_exit 0
    else
      logger_error "Auto Bluetooth WiFi setup failed!" None ;;
      sys_exit 1.

(** ** Observations on the startup *)

(** The commands of a trace, in order. *)
Fixpoint commands (tr : list Event) : list (list string) :=
  match tr with
  | [] => []
  | EvRun argv :: rest => argv :: commands rest
  | _ :: rest => commands rest
  end.

(** Several events added to the trace, in order. *)
Definition emit_all (evs : list Event) (w : World) : World :=
  mkWorld (connected_devices w) (files w) (now w) (trace w ++ evs).

(** dpkg can be started. *)
Definition spawns (o : ProcOutcome) : bool :=
  match o with
  | Exited _ _ => true
  | SpawnError _ => false
  end.

(** The packages dpkg does not report as installed. *)
Definition missing_of (env : Env) (t : Z) (packages : list string) : list string :=
  List.filter (fun p => negb (exits_zero (proc env t (dpkg_argv p)))) packages.

(** The commands of [setup_bluetooth] that are run with [check=True]. *)
Definition bt_checked : list (list string) :=
  [bt_cp_argv; bt_start_argv; bt_enable_argv; bt_discoverable_argv;
   bt_pairable_argv].

(** Every step of [setup_bluetooth] goes through. *)
Definition bluetooth_configured (env : Env) (t : Z) : bool :=
  spawns (proc env t bt_stop_argv) && writable env t bt_conf &&
  forallb (fun argv => exits_zero (proc env t argv)) bt_checked.

(** [setup_dbus] finds an adapter. *)
Definition adapter_found (host : Host) : bool :=
  match bus_outcome host with
  | Objects objects => truthy_get (find_adapter objects None)
  | _ => false
  end.

(** Both receivers are subscribed. *)
Definition subscribed (host : Host) : bool :=
  bool_decide (receiver_fault host = None).

(** What a notification says about the path [p]: tracked, no longer
    tracked, or nothing. *)
Definition tracks (p : string) (s : Signal) : option bool :=
  match s with
  | InterfacesAdded path interfaces =>
      if bool_decide (path = p) &&
         bool_decide (is_Some (interfaces !! "org.bluez.Device1"))
      then Some true else None
  | InterfacesRemoved path _ =>
      if bool_decide (path = p) then Some false else None
  end.

(** Whether [p] is tracked after the notifications, read off the
    notifications alone. *)
Definition tracked_after (p : string) (signals : list Signal) (before : bool)
    : bool :=
  fold_left (fun b s => default b (tracks p s)) signals before.

(** The notifications that start an exchange. *)
Definition is_device_added (s : Signal) : bool :=
  match s with
  | InterfacesAdded _ interfaces =>
      bool_decide (is_Some (interfaces !! "org.bluez.Device1"))
  | InterfacesRemoved _ _ => false
  end.

(** Every required package is reported as installed. *)
Definition deps_installed (env : Env) (t : Z) : bool :=
  forallb (fun p => exits_zero (proc env t (dpkg_argv p))) required_packages.

(** The commands of a list that get run when each is run only after the
    one before it has exited with status zero. *)
Fixpoint run_until_failure (env : Env) (t : Z) (cmds : list (list string))
    : list (list string) :=
  match cmds with
  | [] => []
  | argv :: rest =>
      argv :: (if exits_zero (proc env t argv)
               then run_until_failure env t rest else [])
  end.

(** A notification that no handler acts on: interfaces added to an object
    that is not a device. *)
Definition is_ignored (s : Signal) : bool :=
  match s with
  | InterfacesAdded _ interfaces =>
      negb (bool_decide (is_Some (interfaces !! "org.bluez.Device1")))
  | InterfacesRemoved _ _ => false
  end.

(** ** Observations on connect_to_wifi *)

(** An I/O error stops [connect_to_wifi] started at time [t]: a file that
    cannot be written or a command that cannot be started, at a point the
    function reaches. *)
Definition io_breaks (env : Env) (t : Z) : bool :=
  negb (writable env t tmp_conf)
  || negb (spawns (proc env t cp_argv))
  || (exits_zero (proc env t cp_argv) && negb (spawns (proc env t restart_argv)))
  || (applied env t && negb (spawns (proc env (t + 10) iwconfig_argv)))
  || (verified env t && negb (writable env (t + 10) config_file)).

(** The commands [connect_to_wifi] gets to run when started at time [t]. *)
Definition commands_reached (env : Env) (t : Z) : list (list string) :=
  if negb (writable env t tmp_conf) then []
  else if negb (exits_zero (proc env t cp_argv)) then [cp_argv]
  else if negb (exits_zero (proc env t restart_argv)) then [cp_argv; restart_argv]
  else [cp_argv; restart_argv; iwconfig_argv].

(** What separates the ssid from the password in [wpa_config]. *)
Definition psk_separator : string :=
  dq +:+ nl +:+ "    psk=" +:+ dq.

(** Every character is printable ASCII, from the space to the tilde. *)
Fixpoint printable (s : string) : bool :=
  match s with
  | EmptyString => true
  | String c rest =>
      (32 <=? N_of_ascii c)%N && (N_of_ascii c <=? 126)%N && printable rest
  end.

(** The value of a lower-case hexadecimal digit. *)
Definition hex_value (c : ascii) : option N :=
  let n := N_of_ascii c in
  if ((48 <=? n) && (n <=? 57))%N then Some (n - 48)%N
  else if ((97 <=? n) && (n <=? 102))%N then Some (n - 87)%N
  else None.

(** Reading back the inside of a JSON string: the characters up to the
    closing quote, escapes undone, and the text after the quote.  The
    script never reads its store; this reader serves to show that what
    [json.dump] wrote determines what was given to it. *)
Fixpoint read_string (s : string) : option (string * string) :=
  match s with
  | EmptyString => None
  | String c rest =>
      if (N_of_ascii c =? 34)%N then Some (EmptyString, rest)
      else if (N_of_ascii c =? 92)%N then
        match rest with
        | EmptyString => None
        | String e rest1 =>
            let n := N_of_ascii e in
            let tail := read_string rest1 in
            let plain (d : ascii) :=
              match tail with
              | Some (v, r) => Some (String d v, r)
              | None => None
              end in
            if (n =? 92)%N then plain "092"%char
            else if (n =? 34)%N then plain "034"%char
            else if (n =? 98)%N then plain "008"%char
            else if (n =? 102)%N then plain "012"%char
            else if (n =? 110)%N then plain "010"%char
            else if (n =? 114)%N then plain "013"%char
            else if (n =? 116)%N then plain "009"%char
            else if (n =? 117)%N then
              match rest1 with
              | String _ (String _ (String h (String l rest2))) =>
                  match hex_value h, hex_value l, read_string rest2 with
                  | Some a, Some b, Some (v, r) =>
                      Some (String (ascii_of_N (16 * a + b)) v, r)
                  | _, _, _ => None
                  end
              | _ => None
              end
            else None
        end
      else
        match read_string rest with
        | Some (v, r) => Some (String c v, r)
        | None => None
        end
  end.

(** ** Scenarios *)

(** iwconfig output of an associated and of an unassociated interface. *)
Definition iwconfig_associated (ssid : string) : string :=
  "wlan0     IEEE 802.11  ESSID:" +:+ dq +:+ ssid +:+ dq.

Definition iwconfig_unassociated : string :=
  "wlan0     IEEE 802.11  ESSID:off/any".

(** Every command succeeds and the interface is associated. *)
Definition env_ok : Env :=
  mkEnv (fun t argv =>
           if bool_decide (argv = iwconfig_argv)
           then Exited 0 (iwconfig_associated "HomeNet")
           else Exited 0 "")
        (fun _ _ => None) (fun _ _ => None).

(** [systemctl restart networking] exits with status 1. *)
Definition env_restart_fails : Env :=
  mkEnv (fun t argv =>
           if bool_decide (argv = restart_argv) then Exited 1 ""
           else if bool_decide (argv = iwconfig_argv)
           then Exited 0 (iwconfig_associated "HomeNet")
           else Exited 0 "")
        (fun _ _ => None) (fun _ _ => None).

(** The interface associates 12 seconds after the start. *)
Definition env_late : Env :=
  mkEnv (fun t argv =>
           if bool_decide (argv = iwconfig_argv)
           then Exited 0 (if (t <? 12)%Z then iwconfig_unassociated
                          else iwconfig_associated "HomeNet")
           else Exited 0 "")
        (fun _ _ => None) (fun _ _ => None).

(** /tmp is not writable: [open] fails with EACCES. *)
Definition env_tmp_denied : Env :=
  mkEnv (fun t argv =>
           if bool_decide (argv = iwconfig_argv)
           then Exited 0 (iwconfig_associated "HomeNet")
           else Exited 0 "")
        (fun _ path =>
           if bool_decide (path = tmp_conf) then Some 13
           else None)
        (fun _ _ => None).

(** A peer that hands over the credentials of HomeNet. *)
Definition sim_homenet : Extractor :=
  fun _ _ => mret (Some (<["ssid" := "HomeNet"]> (<["password" := "s3cret123"]> ∅))).

(** A peer that answers with the empty payload. *)
Definition sim_empty : Extractor := fun _ _ => mret (Some ∅).

(** The stub's delay and log line, then the empty payload. *)
Definition sim_empty_slow : Extractor :=
  fun _ _ =>
    time_sleep 2 ;;
    logger_info "Credential extraction simulation complete" ;;
    mret (Some ∅).

(** The link to the peer breaks during the exchange. *)
Definition sim_io_error : Extractor := fun _ _ => raise (OSError 5 "rfcomm").

(** A peer that gives a network name and no secret. *)
Definition sim_no_secret : Extractor :=
  fun _ _ => mret (Some (<["ssid" := "HomeNet"]> ∅)).

(** A store that already holds the record of an earlier network. *)
Definition old_record : string :=
  json_dumps (credentials_dict "OldNet" "0ldsecret").

Definition w0 : World := init ∅ 0.
Definition w_old : World := init (<[config_file := old_record]> ∅) 0.

Definition phone : gmap string (gmap string string) :=
  <["org.bluez.Device1" :=
      <["Name" := "Pixel"]> (<["Address" := "AA:BB:CC:DD:EE:FF"]> ∅)]> ∅.

Definition phone_path : string := "/org/bluez/hci0/dev_AA_BB_CC_DD_EE_FF".

(** dpkg does not know python3-gi. *)
Definition env_missing_gi : Env :=
  mkEnv (fun t argv =>
           if bool_decide (argv = dpkg_argv "python3-gi") then Exited 1 ""
           else Exited 0 "")
        (fun _ _ => None) (fun _ _ => None).

(** Stopping the Bluetooth service fails; every other command succeeds. *)
Definition env_stop_fails : Env :=
  mkEnv (fun t argv =>
           if bool_decide (argv = bt_stop_argv) then Exited 5 ""
           else if bool_decide (argv = iwconfig_argv)
           then Exited 0 (iwconfig_associated "HomeNet")
           else Exited 0 "")
        (fun _ _ => None) (fun _ _ => None).


(** The disk is full when the store is written (ENOSPC). *)
Definition env_store_full : Env :=
  mkEnv (fun t argv =>
           if bool_decide (argv = iwconfig_argv)
           then Exited 0 (iwconfig_associated "HomeNet")
           else Exited 0 "")
        (fun _ _ => None)
        (fun _ path =>
           if bool_decide (path = config_file) then Some 28 else None).

(** The objects BlueZ manages on a board with one adapter. *)
Definition bluez_objects : list (string * gmap string (gmap string string)) :=
  [("/org/bluez", <["org.bluez.AgentManager1" := ∅]> ∅);
   ("/org/bluez/hci0", <["org.bluez.Adapter1" := ∅]> ∅);
   ("/org/bluez/hci1", <["org.bluez.Adapter1" := ∅]> ∅)].

(** Started as root; a phone connects and leaves before Ctrl-C. *)
Definition host_ok : Host :=
  mkHost 0 (Objects bluez_objects) None
    [InterfacesAdded phone_path phone;
     InterfacesRemoved phone_path ["org.bluez.Device1"]].

(** Started by an ordinary user. *)
Definition host_user : Host :=
  mkHost 1000 (Objects bluez_objects) None [].

(** ** Observations on the files connect_to_wifi opens *)

(** The paths given to [open(path, 'w')], in order. *)
Fixpoint opened (tr : list Event) : list string :=
  match tr with
  | [] => []
  | EvOpenW path :: rest => path :: opened rest
  | _ :: rest => opened rest
  end.

(** [connect_to_wifi] started at time [t] reaches a command that cannot be
    started: the copy, the restart after a successful copy, or iwconfig
    after both. *)
Definition command_cannot_start (env : Env) (t : Z) : bool :=
  writable env t tmp_conf &&
  (negb (spawns (proc env t cp_argv))
   || (exits_zero (proc env t cp_argv)
       && negb (spawns (proc env t restart_argv)))
   || (exits_zero (proc env t cp_argv)
       && exits_zero (proc env t restart_argv)
       && negb (spawns (proc env (t + 10) iwconfig_argv)))).

(** The world [connect_to_wifi] has reached when it comes to line 298:
    the configuration written and installed, networking restarted, ten
    seconds slept, iwconfig run and the success logged. *)
Definition before_store_update (ssid password : string) (w : World) : World :=
  emit (EvLog INFO ("Successfully connected to WiFi: " +:+ ssid) None)
    (emit (EvRun iwconfig_argv)
       (advance 10
          (emit (EvSleep 10)
             (emit (EvRun restart_argv)
                (emit (EvRun cp_argv)
                   (set_files (<[tmp_conf := wpa_config ssid password]> (files w))
                      (emit (EvWrite tmp_conf (wpa_config ssid password))
                         (emit (EvOpenW tmp_conf) w)))))))).

(** There is no sudo to start (ENOENT); iwconfig would report an
    association. *)
Definition env_no_sudo : Env :=
  mkEnv (fun t argv =>
           if bool_decide (hd "" argv = "sudo") then SpawnError 2
           else if bool_decide (argv = iwconfig_argv)
           then Exited 0 (iwconfig_associated "HomeNet")
           else Exited 0 "")
        (fun _ _ => None) (fun _ _ => None).

(** * Properties *)

(** ** Unfolding one statement at a time *)

Ltac unfold_py :=
  unfold mbind, mret, M_bind, M_ret, bind, ret, raise, try_except,
    logger_info, logger_error, time_sleep, devices_add, devices_mem,
    devices_remove in *.

Lemma tmp_conf_not_store : tmp_conf ≠ config_file.
Proof. discriminate. Qed.

(** ** on_device_disconnected *)

Lemma disconnect_absent path interfaces w :
  path ∉ connected_devices w ->
  on_device_disconnected path interfaces w = (Returned tt, w).
Proof.
  intros Hout. unfold on_device_disconnected. unfold_py.
  rewrite bool_decide_eq_false_2 by exact Hout. reflexivity.
Qed.

Lemma disconnect_present path interfaces w :
  path ∈ connected_devices w ->
  on_device_disconnected path interfaces w =
    (Returned tt,
     set_devices (connected_devices w ∖ {[path]})
       (emit (EvLog INFO ("Device disconnected: " +:+ path) None) w)).
Proof.
  intros Hin. unfold on_device_disconnected. unfold_py.
  rewrite bool_decide_eq_true_2 by exact Hin. cbn.
  rewrite bool_decide_eq_true_2 by exact Hin. reflexivity.
Qed.

(** C10. on_device_disconnected on the tracked peers: a path that is not
    tracked (also the second delivery of the same notification) leaves the
    whole world as it is and the handler returns; a tracked path is removed
    from the set, one line is logged, and nothing else changes. *)
Theorem C10_disconnect_idempotent path interfaces w :
  (path ∉ connected_devices w ->
   on_device_disconnected path interfaces w = (Returned tt, w)) /\
  (path ∈ connected_devices w ->
   on_device_disconnected path interfaces w =
     (Returned tt,
      set_devices (connected_devices w ∖ {[path]})
        (emit (EvLog INFO ("Device disconnected: " +:+ path) None) w))) /\
  (let w1 := snd (on_device_disconnected path interfaces w) in
   on_device_disconnected path interfaces w1 = (Returned tt, w1)) /\
  (forall other, other ≠ path ->
   other ∈ connected_devices (snd (on_device_disconnected path interfaces w))
   <-> other ∈ connected_devices w).
Proof.
  split; [apply disconnect_absent |].
  split; [apply disconnect_present |].
  destruct (decide (path ∈ connected_devices w)) as [Hin | Hout].
  - rewrite (disconnect_present _ _ _ Hin). cbn. split.
    + apply disconnect_absent. cbn.
      rewrite elem_of_difference, elem_of_singleton. tauto.
    + intros other Hne.
      rewrite elem_of_difference, elem_of_singleton. tauto.
  - rewrite (disconnect_absent _ _ _ Hout). cbn. split.
    + apply disconnect_absent, Hout.
    + tauto.
Qed.

Lemma C10_disconnect_idempotent_witness :
  ("/org/bluez/hci0/dev_1" ∉ connected_devices w0) /\
  on_device_disconnected "/org/bluez/hci0/dev_1" [] w0 = (Returned tt, w0).
Proof.
  assert (H : "/org/bluez/hci0/dev_1" ∉ connected_devices w0)
    by apply not_elem_of_empty.
  split; [exact H |].
  exact (proj1 (C10_disconnect_idempotent "/org/bluez/hci0/dev_1" [] w0) H).
Defined.

(** ** connect_to_wifi *)

Ltac unfold_io :=
  unfold with_open_w, with_open_w_steps, run_steps, subprocess_run, open_w,
    file_write, file_close in *.

Ltac unfold_env :=
  unfold verified, verify_fails, applied, apply_fails, connectivity,
    writable, exits_zero, exits_nonzero in *.

(** One case distinction on what the environment answers next. *)
Ltac env_case :=
  match goal with
  | |- context [open_errno ?e ?t ?p] => destruct (open_errno e t p) eqn:?
  | |- context [write_errno ?e ?t ?p] => destruct (write_errno e t p) eqn:?
  | |- context [proc ?e ?t ?a] => destruct (proc e t a) as [? ?|?] eqn:?
  | |- context [(?rc =? 0)%Z] => destruct (rc =? 0)%Z eqn:?
  | |- context [reports_association ?o] =>
      destruct (reports_association o) eqn:?
  end; cbn; simplify_eq.

(** The events added to [trace w], read off a trace built by [emit]. *)
Ltac norm_events :=
  unfold new_events; cbn;
  rewrite <- ?app_assoc; rewrite ?drop_app_length, ?drop_all; cbn.

Lemma connect_store_changed env ssid password w :
  store (snd (connect_to_wifi env ssid password w)) ≠ store w ->
  verified env (now w) = true.
Proof.
  unfold_env. unfold store, connect_to_wifi. unfold_io. unfold_py. cbn.
  repeat env_case.
  all: try reflexivity.
  all: intros H; exfalso; apply H.
  all: rewrite ?lookup_insert_ne by discriminate; reflexivity.
Qed.

Lemma connect_store_touched env ssid password w :
  existsb touches_store
    (new_events w (snd (connect_to_wifi env ssid password w))) = true ->
  verified env (now w) = true.
Proof.
  unfold_env. unfold connect_to_wifi. unfold_io. unfold_py. cbn.
  repeat env_case.
  all: try reflexivity.
  all: norm_events; intros H; discriminate H.
Qed.

Lemma connect_raises_OSError env ssid password w e w' :
  connect_to_wifi env ssid password w = (Raised e, w') ->
  exists errno f, e = OSError errno f.
Proof.
  unfold connect_to_wifi. unfold_io. unfold_py. cbn.
  repeat env_case; intros H; simplify_eq; eauto.
Qed.

Lemma connect_apply_fails env ssid password w :
  apply_fails env (now w) = true ->
  fst (connect_to_wifi env ssid password w) = Returned false.
Proof.
  unfold_env. unfold connect_to_wifi. unfold_io. unfold_py. cbn.
  repeat env_case; intros H; simplify_eq; try reflexivity; discriminate.
Qed.

Lemma connect_verify_fails env ssid password w :
  verify_fails env (now w) = true ->
  fst (connect_to_wifi env ssid password w) = Returned false.
Proof.
  unfold_env. unfold connect_to_wifi. unfold_io. unfold_py. cbn.
  repeat env_case; intros H; simplify_eq; try reflexivity; discriminate.
Qed.

Lemma connect_verified env ssid password w :
  verified env (now w) = true ->
  writable env (now w + 10) config_file = true ->
  fst (connect_to_wifi env ssid password w) = Returned true /\
  store (snd (connect_to_wifi env ssid password w)) =
    Some (json_dumps (credentials_dict ssid password)).
Proof.
  unfold_env. unfold store, connect_to_wifi. unfold_io. unfold_py. cbn.
  repeat env_case; intros H1 H2; simplify_eq; try discriminate.
  split; [reflexivity |].
  rewrite lookup_insert_eq. rewrite lookup_insert_eq. reflexivity.
Qed.

Lemma verified_not_failed env t :
  verified env t = true ->
  apply_fails env t = false /\ verify_fails env t = false.
Proof.
  unfold_env.
  destruct (bool_decide (open_errno env t tmp_conf = None)); cbn;
    [| discriminate].
  destruct (bool_decide (write_errno env t tmp_conf = None)); cbn;
    [| discriminate].
  destruct (proc env t cp_argv) as [rc1 ?|]; cbn; [| discriminate].
  destruct (rc1 =? 0)%Z; cbn; [| discriminate].
  destruct (proc env t restart_argv) as [rc2 ?|]; cbn; [| discriminate].
  destruct (rc2 =? 0)%Z; cbn; [| discriminate].
  destruct (proc env (t + 10) iwconfig_argv) as [? out|]; cbn;
    [| discriminate].
  destruct (reports_association out); cbn; [tauto | discriminate].
Qed.

Lemma verified_can_start env t :
  verified env t = true -> command_cannot_start env t = false.
Proof.
  unfold command_cannot_start, spawns. unfold_env.
  destruct (bool_decide (open_errno env t tmp_conf = None)); cbn;
    [| discriminate].
  destruct (bool_decide (write_errno env t tmp_conf = None)); cbn;
    [| discriminate].
  destruct (proc env t cp_argv) as [rc1 ?|]; cbn; [| discriminate].
  destruct (rc1 =? 0)%Z; cbn; [| discriminate].
  destruct (proc env t restart_argv) as [rc2 ?|]; cbn; [| discriminate].
  destruct (rc2 =? 0)%Z; cbn; [| discriminate].
  destruct (proc env (t + 10) iwconfig_argv) as [? out|]; cbn;
    [reflexivity | discriminate].
Qed.

Lemma connect_cannot_start env ssid password w :
  command_cannot_start env (now w) = true ->
  exists errno name,
    fst (connect_to_wifi env ssid password w) = Raised (OSError errno name).
Proof.
  unfold command_cannot_start, spawns. unfold_env.
  unfold connect_to_wifi. unfold_io. unfold_py. cbn.
  repeat env_case; intros H; simplify_eq; try discriminate; eauto.
Qed.

(** C1 as the code has it.  When the copy or the restart exits with a
    non-zero status, or the check made after the restart does not report
    an association, connect_to_wifi returns False.  When one of the
    commands it reaches cannot be started at all, it does not return: the
    OSError goes to its caller.  In both cases the credential store keeps
    its content and is not even opened.  For every input, the store is
    opened, written or changed only when the configuration was applied
    and the check reported an association. *)
Theorem C1_failure_leaves_store_unchanged env ssid password w :
  (apply_fails env (now w) || verify_fails env (now w) = true ->
   fst (connect_to_wifi env ssid password w) = Returned false /\
   store (snd (connect_to_wifi env ssid password w)) = store w /\
   existsb touches_store
     (new_events w (snd (connect_to_wifi env ssid password w))) = false) /\
  (command_cannot_start env (now w) = true ->
   (exists errno name,
      fst (connect_to_wifi env ssid password w) = Raised (OSError errno name)) /\
   store (snd (connect_to_wifi env ssid password w)) = store w /\
   existsb touches_store
     (new_events w (snd (connect_to_wifi env ssid password w))) = false) /\
  (store (snd (connect_to_wifi env ssid password w)) ≠ store w \/
   existsb touches_store
     (new_events w (snd (connect_to_wifi env ssid password w))) = true ->
   verified env (now w) = true).
Proof.
  assert (Hkept : verified env (now w) ≠ true ->
    store (snd (connect_to_wifi env ssid password w)) = store w /\
    existsb touches_store
      (new_events w (snd (connect_to_wifi env ssid password w))) = false).
  { intros Hnot. split.
    - destruct (decide (store (snd (connect_to_wifi env ssid password w))
                        = store w)) as [Heq | Hne]; [exact Heq |].
      exfalso. apply Hnot. now apply connect_store_changed with ssid password.
    - apply not_true_is_false. intros Ht. apply Hnot.
      now apply connect_store_touched with ssid password. }
  split; [| split].
  - intros Hfail.
    assert (Hnot : verified env (now w) ≠ true).
    { intros Hv. apply verified_not_failed in Hv as [Ha Hb].
      rewrite Ha, Hb in Hfail. discriminate. }
    split; [| exact (Hkept Hnot)].
    apply orb_true_iff in Hfail as [H | H].
    + now apply connect_apply_fails.
    + now apply connect_verify_fails.
  - intros Hcs.
    assert (Hnot : verified env (now w) ≠ true).
    { intros Hv. apply verified_can_start in Hv. congruence. }
    split; [now apply connect_cannot_start | exact (Hkept Hnot)].
  - intros [H | H].
    + now apply connect_store_changed with ssid password.
    + now apply connect_store_touched with ssid password.
Qed.

Lemma C1_failure_leaves_store_unchanged_witness :
  apply_fails env_restart_fails (now w_old)
  || verify_fails env_restart_fails (now w_old) = true /\
  fst (connect_to_wifi env_restart_fails "HomeNet" "s3cret123" w_old)
    = Returned false /\
  store (snd (connect_to_wifi env_restart_fails "HomeNet" "s3cret123" w_old))
    = Some old_record.
Proof.
  assert (H : apply_fails env_restart_fails (now w_old)
              || verify_fails env_restart_fails (now w_old) = true)
    by (vm_compute; reflexivity).
  destruct (proj1 (C1_failure_leaves_store_unchanged
                     env_restart_fails "HomeNet" "s3cret123" w_old) H)
    as (Hr & Hs & _).
  split; [exact H |]. split; [exact Hr |].
  rewrite Hs. vm_compute. reflexivity.
Defined.

(** C1 as stated fails.  sudo cannot be started: the step that applies
    the credentials raises an error, yet connect_to_wifi does not return
    False, it raises the OSError of the copy.  The store keeps the record
    it had. *)
Lemma C1_counterexample :
  command_cannot_start env_no_sudo (now w_old) = true /\
  fst (connect_to_wifi env_no_sudo "HomeNet" "s3cret123" w_old)
    = Raised (OSError 2 "sudo") /\
  fst (connect_to_wifi env_no_sudo "HomeNet" "s3cret123" w_old)
    ≠ Returned false /\
  store (snd (connect_to_wifi env_no_sudo "HomeNet" "s3cret123" w_old))
    = Some old_record.
Proof.
  split; [vm_compute; reflexivity |].
  split; [vm_compute; reflexivity |].
  split; [intros H; vm_compute in H; discriminate H |].
  vm_compute. reflexivity.
Qed.

Lemma connect_single_check env ssid password w :
  applied env (now w) = true ->
  sleeps (new_events w (snd (connect_to_wifi env ssid password w))) = [10] /\
  queries (new_events w (snd (connect_to_wifi env ssid password w))) = 1%nat.
Proof.
  unfold_env. unfold connect_to_wifi. unfold_io. unfold_py. cbn.
  repeat env_case; intros H; simplify_eq; try discriminate.
  all: norm_events; split; reflexivity.
Qed.

Lemma connect_store_unwritable env ssid password w :
  verified env (now w) = true ->
  writable env (now w + 10) config_file = false ->
  exists errno,
    fst (connect_to_wifi env ssid password w)
      = Raised (OSError errno config_file).
Proof.
  unfold_env. unfold connect_to_wifi. unfold_io. unfold_py. cbn.
  repeat env_case; intros H1 H2; simplify_eq; try discriminate; eauto.
Qed.

(** C4 as the code has it.  Once the configuration is applied,
    connect_to_wifi sleeps ten seconds once and runs iwconfig once.  That
    single output decides.  When it does not report an association the
    result is False.  When it does, the store is written and the result
    is True, or, if the store cannot be written, the OSError of that
    write is raised.  The test looks for ESSID: and off/any only; it does
    not read the requested name. *)
Theorem C4_single_connectivity_check env ssid password w :
  applied env (now w) = true ->
  sleeps (new_events w (snd (connect_to_wifi env ssid password w))) = [10] /\
  queries (new_events w (snd (connect_to_wifi env ssid password w))) = 1%nat /\
  (connectivity env (now w) = Some false ->
   fst (connect_to_wifi env ssid password w) = Returned false) /\
  (connectivity env (now w) = Some true ->
   writable env (now w + 10) config_file = true ->
   fst (connect_to_wifi env ssid password w) = Returned true) /\
  (connectivity env (now w) = Some true ->
   writable env (now w + 10) config_file = false ->
   exists errno,
     fst (connect_to_wifi env ssid password w)
       = Raised (OSError errno config_file)).
Proof.
  intros Happ.
  destruct (connect_single_check env ssid password w Happ) as [Hs Hq].
  split; [exact Hs |]. split; [exact Hq |]. split; [| split].
  - intros Hc. apply connect_verify_fails. unfold verify_fails.
    rewrite Happ, Hc. reflexivity.
  - intros Hc Hw. apply connect_verified; [| exact Hw]. unfold verified.
    rewrite Happ, Hc. reflexivity.
  - intros Hc Hw. apply connect_store_unwritable; [| exact Hw].
    unfold verified. rewrite Happ, Hc. reflexivity.
Qed.

Lemma C4_single_connectivity_check_witness :
  applied env_late (now w0) = true /\
  queries (new_events w0 (snd (connect_to_wifi env_late "HomeNet" "s3cret123" w0)))
    = 1%nat /\
  fst (connect_to_wifi env_late "HomeNet" "s3cret123" w0) = Returned false.
Proof.
  assert (Happ : applied env_late (now w0) = true) by (vm_compute; reflexivity).
  destruct (C4_single_connectivity_check env_late "HomeNet" "s3cret123" w0 Happ)
    as (_ & Hq & Hf & _).
  split; [exact Happ |]. split; [exact Hq |].
  apply Hf. vm_compute. reflexivity.
Defined.

(** C4 as stated fails.  The interface associates twelve seconds after the
    start: a second poll two seconds after the first would see it, yet
    connect_to_wifi has asked once, at ten seconds, and returned False. *)
Lemma C4_counterexample :
  fst (connect_to_wifi env_late "HomeNet" "s3cret123" w0) = Returned false /\
  queries (trace (snd (connect_to_wifi env_late "HomeNet" "s3cret123" w0)))
    = 1%nat /\
  sleeps (trace (snd (connect_to_wifi env_late "HomeNet" "s3cret123" w0)))
    = [10] /\
  match proc env_late 12 iwconfig_argv with
  | Exited _ out => reports_association out
  | SpawnError _ => false
  end = true.
Proof. vm_compute. repeat split; reflexivity. Qed.

(** C5 as the code has it.  When the configuration is applied, the check
    reports an association and the store can be written, connect_to_wifi
    returns True and the store holds the JSON object with the two keys
    ssid and password, in that order, and nothing else. *)
Theorem C5_stored_record env ssid password w :
  verified env (now w) = true ->
  writable env (now w + 10) config_file = true ->
  fst (connect_to_wifi env ssid password w) = Returned true /\
  store (snd (connect_to_wifi env ssid password w)) =
    Some (json_dumps [("ssid", PStr ssid); ("password", PStr password)]).
Proof. apply connect_verified. Qed.

Lemma C5_stored_record_witness :
  verified env_ok (now w_old) = true /\
  writable env_ok (now w_old + 10) config_file = true /\
  store (snd (connect_to_wifi env_ok "HomeNet" "s3cret123" w_old)) =
    Some ("{" +:+ dq +:+ "ssid" +:+ dq +:+ ": " +:+ dq +:+ "HomeNet" +:+ dq +:+
          ", " +:+ dq +:+ "password" +:+ dq +:+ ": " +:+ dq +:+ "s3cret123" +:+
          dq +:+ "}").
Proof.
  assert (Hv : verified env_ok (now w_old) = true) by (vm_compute; reflexivity).
  assert (Hw : writable env_ok (now w_old + 10) config_file = true)
    by (vm_compute; reflexivity).
  split; [exact Hv |]. split; [exact Hw |].
  rewrite (proj2 (C5_stored_record env_ok "HomeNet" "s3cret123" w_old Hv Hw)).
  vm_compute. reflexivity.
Defined.

(** C5 as stated fails.  After scenario A the store holds the ssid and the
    password of HomeNet; it is not the record with a verified marker, and
    the word verified does not occur in it. *)
Lemma C5_counterexample :
  fst (extract_wifi_credentials_with env_ok sim_homenet phone_path "Pixel" w0)
    = Returned true /\
  store (snd (extract_wifi_credentials_with env_ok sim_homenet phone_path
                "Pixel" w0))
    = Some (json_dumps (credentials_dict "HomeNet" "s3cret123")) /\
  store (snd (extract_wifi_credentials_with env_ok sim_homenet phone_path
                "Pixel" w0))
    ≠ Some (json_dumps spec_stored_record) /\
  str_in "verified" (json_dumps (credentials_dict "HomeNet" "s3cret123"))
    = false.
Proof.
  split; [vm_compute; reflexivity |].
  split; [vm_compute; reflexivity |].
  split; [| vm_compute; reflexivity].
  intros H. vm_compute in H. discriminate H.
Qed.

(** ** The store update inside connect_to_wifi *)

Lemma tmp_written (fs : gmap string string) (data : string) :
  <[tmp_conf := default "" (<[tmp_conf := ""]> fs !! tmp_conf) +:+ data]>
    (<[tmp_conf := ""]> fs)
  = <[tmp_conf := data]> fs.
Proof. rewrite lookup_insert_eq. cbn. apply insert_insert_eq. Qed.

Lemma connect_reaches_store_update env ssid password w :
  verified env (now w) = true ->
  connect_to_wifi env ssid password w =
    match
      with_open_w env config_file (json_dumps (credentials_dict ssid password))
        (before_store_update ssid password w)
    with
    | (Returned _, w') => (Returned true, w')
    | (Raised e, w') => (Raised e, w')
    end.
Proof.
  unfold_env. unfold before_store_update, connect_to_wifi.
  unfold_io. unfold_py. cbn.
  repeat env_case; intros H; simplify_eq; try discriminate.
  all: rewrite ?tmp_written; reflexivity.
Qed.

Lemma after_open env path data w :
  open_errno env (now w) path = None ->
  after_steps 1 (with_open_w_steps env path data) w
    = set_files (<[path := ""]> (files w)) (emit (EvOpenW path) w).
Proof.
  intros Ho. unfold after_steps, with_open_w_steps. cbn [take run_steps].
  unfold open_w. unfold_py. rewrite Ho. reflexivity.
Qed.

Lemma with_open_w_written env path data w :
  open_errno env (now w) path = None ->
  write_errno env (now w) path = None ->
  with_open_w env path data w
    = (Returned tt, after_steps 3 (with_open_w_steps env path data) w) /\
  after_steps 3 (with_open_w_steps env path data) w
    = set_files (<[path := data]> (files w))
        (emit (EvWrite path data) (emit (EvOpenW path) w)).
Proof.
  intros Ho Hw.
  unfold with_open_w, after_steps, with_open_w_steps. cbn [take run_steps].
  unfold open_w, file_write, file_close. unfold_py. rewrite Ho. cbn.
  rewrite Hw. cbn. split; [reflexivity |].
  rewrite lookup_insert_eq. cbn. now rewrite insert_insert_eq.
Qed.

Lemma with_open_w_write_fails env path data w errno :
  open_errno env (now w) path = None ->
  write_errno env (now w) path = Some errno ->
  with_open_w env path data w
    = (Raised (OSError errno path),
       after_steps 1 (with_open_w_steps env path data) w).
Proof.
  intros Ho Hw.
  unfold with_open_w, after_steps, with_open_w_steps. cbn [take run_steps].
  unfold open_w, file_write, file_close. unfold_py. rewrite Ho. cbn.
  rewrite Hw. reflexivity.
Qed.

(** C2 as the code has it.  connect_to_wifi rewrites the store in place.
    Having applied and verified the credentials, it opens the canonical
    file for writing, which empties it, and writes the record into that
    same file: the files it opens are /tmp/wpa_supplicant.conf and the
    store, there is no staging file and no swap.  When the write goes
    through, connect_to_wifi returns True and the store holds the new
    record.  When the run stops between the open and the write (the write
    fails), connect_to_wifi ends in the state after the first step of the
    update: the store is empty. *)
Theorem C2_store_rewritten_in_place env ssid password w :
  verified env (now w) = true ->
  open_errno env (now w + 10) config_file = None ->
  let data := json_dumps (credentials_dict ssid password) in
  let w_pre := before_store_update ssid password w in
  let steps := with_open_w_steps env config_file data in
  store w_pre = store w /\
  store (after_steps 1 steps w_pre) = Some "" /\
  trace (after_steps 1 steps w_pre) = trace w_pre ++ [EvOpenW config_file] /\
  (write_errno env (now w + 10) config_file = None ->
   connect_to_wifi env ssid password w
     = (Returned true, after_steps 3 steps w_pre) /\
   store (snd (connect_to_wifi env ssid password w)) = Some data /\
   opened (new_events w (snd (connect_to_wifi env ssid password w)))
     = [tmp_conf; config_file]) /\
  (forall errno,
     write_errno env (now w + 10) config_file = Some errno ->
     connect_to_wifi env ssid password w
       = (Raised (OSError errno config_file), after_steps 1 steps w_pre) /\
     store (snd (connect_to_wifi env ssid password w)) = Some "" /\
     opened (new_events w (snd (connect_to_wifi env ssid password w)))
       = [tmp_conf; config_file]).
Proof.
  intros Hv Ho data w_pre steps.
  pose proof (connect_reaches_store_update env ssid password w Hv) as Hrun.
  fold data in Hrun. fold w_pre in Hrun.
  assert (Ho' : open_errno env (now w_pre) config_file = None) by exact Ho.
  assert (Hpre : store w_pre = store w).
  { unfold store, w_pre, before_store_update. cbn.
    now rewrite lookup_insert_ne by discriminate. }
  pose proof (after_open env config_file data w_pre Ho') as H1.
  fold steps in H1.
  split; [exact Hpre |].
  split; [rewrite H1; unfold store; cbn; apply lookup_insert_eq |].
  split; [rewrite H1; reflexivity |].
  split.
  - intros Hw.
    assert (Hw' : write_errno env (now w_pre) config_file = None) by exact Hw.
    destruct (with_open_w_written env config_file data w_pre Ho' Hw')
      as [H3 H3w].
    fold steps in H3, H3w. rewrite H3 in Hrun. rewrite Hrun. cbn [fst snd].
    split; [reflexivity |]. rewrite H3w. split.
    + unfold store. cbn. apply lookup_insert_eq.
    + unfold w_pre, before_store_update. norm_events. reflexivity.
  - intros errno Hw.
    assert (Hw' : write_errno env (now w_pre) config_file = Some errno)
      by exact Hw.
    pose proof (with_open_w_write_fails env config_file data w_pre errno
                  Ho' Hw') as H3.
    fold steps in H3. rewrite H3 in Hrun. rewrite Hrun. cbn [fst snd].
    split; [reflexivity |]. rewrite H1. split.
    + unfold store. cbn. apply lookup_insert_eq.
    + unfold w_pre, before_store_update. norm_events. reflexivity.
Qed.

Lemma C2_store_rewritten_in_place_witness :
  verified env_store_full (now w_old) = true /\
  open_errno env_store_full (now w_old + 10) config_file = None /\
  write_errno env_store_full (now w_old + 10) config_file = Some 28 /\
  store (snd (connect_to_wifi env_store_full "HomeNet" "s3cret123" w_old))
    = Some "".
Proof.
  assert (Hv : verified env_store_full (now w_old) = true)
    by (vm_compute; reflexivity).
  assert (Ho : open_errno env_store_full (now w_old + 10) config_file = None)
    by reflexivity.
  assert (Hw : write_errno env_store_full (now w_old + 10) config_file
               = Some 28) by (vm_compute; reflexivity).
  split; [exact Hv |]. split; [exact Ho |]. split; [exact Hw |].
  destruct (C2_store_rewritten_in_place env_store_full "HomeNet" "s3cret123"
              w_old Hv Ho) as (_ & _ & _ & _ & Hfail).
  exact (proj1 (proj2 (Hfail 28 Hw))).
Defined.

(** C2 as stated fails.  The store holds the record of OldNet and
    connect_to_wifi updates it to HomeNet on a full disk: the run stops
    between the open and the write, and what it leaves in the canonical
    file is empty, neither the old record nor the new one.  The only
    files it has opened are /tmp/wpa_supplicant.conf and the store
    itself. *)
Lemma C2_counterexample :
  store w_old = Some old_record /\
  fst (connect_to_wifi env_store_full "HomeNet" "s3cret123" w_old)
    = Raised (OSError 28 config_file) /\
  store (snd (connect_to_wifi env_store_full "HomeNet" "s3cret123" w_old))
    = Some "" /\
  store (snd (connect_to_wifi env_store_full "HomeNet" "s3cret123" w_old))
    ≠ Some old_record /\
  store (snd (connect_to_wifi env_store_full "HomeNet" "s3cret123" w_old))
    ≠ Some (json_dumps (credentials_dict "HomeNet" "s3cret123")) /\
  opened (trace (snd (connect_to_wifi env_store_full "HomeNet" "s3cret123"
                        w_old)))
    = [tmp_conf; config_file].
Proof.
  split; [vm_compute; reflexivity |].
  split; [vm_compute; reflexivity |].
  split; [vm_compute; reflexivity |].
  split; [intros H; vm_compute in H; discriminate H |].
  split; [intros H; vm_compute in H; discriminate H |].
  vm_compute. reflexivity.
Qed.

(** ** extract_wifi_credentials *)

Lemma truthy_str_spec s : truthy_str s = true <-> s ≠ "".
Proof. destruct s; cbn; split; intros H; congruence. Qed.

Lemma credentials_found_spec credentials :
  credentials_found credentials = true <->
  exists d ssid password,
    credentials = Some d /\
    d !! "ssid" = Some ssid /\ ssid ≠ "" /\
    d !! "password" = Some password /\ password ≠ "".
Proof.
  unfold credentials_found. split.
  - intros H. apply andb_true_iff in H as [H Hp].
    apply andb_true_iff in H as [Hd Hs].
    destruct credentials as [d |]; [| discriminate]. cbn in Hs, Hp.
    destruct (d !! "ssid") as [ssid |] eqn:Es; [| discriminate].
    destruct (d !! "password") as [password |] eqn:Ep; [| discriminate].
    exists d, ssid, password. cbn in Hs, Hp.
    rewrite truthy_str_spec in Hs, Hp. auto.
  - intros (d & ssid & password & -> & Es & Hs & Ep & Hp). cbn.
    rewrite Es, Ep. cbn.
    apply truthy_str_spec in Hs. apply truthy_str_spec in Hp.
    rewrite Hs, Hp. rewrite bool_decide_eq_false_2; [reflexivity |].
    intros ->. rewrite lookup_empty in Es. discriminate.
Qed.

Lemma extract_not_found env (sim : Extractor) device_path device_name w
    credentials w1 :
  sim device_path device_name (emit (attempt_line device_name) w)
    = (Returned credentials, w1) ->
  credentials_found credentials = false ->
  extract_wifi_credentials_with env sim device_path device_name w =
    (Returned false,
     emit (EvLog INFO ("No WiFi credentials found on " +:+ device_name) None) w1).
Proof.
  intros Hs Hf. unfold attempt_line in Hs.
  unfold extract_wifi_credentials_with. unfold_py.
  rewrite Hs, Hf. reflexivity.
Qed.

Lemma extract_found env (sim : Extractor) device_path device_name w
    d ssid password w1 :
  sim device_path device_name (emit (attempt_line device_name) w)
    = (Returned (Some d), w1) ->
  d !! "ssid" = Some ssid -> ssid ≠ "" ->
  d !! "password" = Some password -> password ≠ "" ->
  extract_wifi_credentials_with env sim device_path device_name w =
    match
      connect_to_wifi env ssid password
        (emit (EvLog INFO ("Network: " +:+ ssid) None)
           (emit (EvLog INFO ("WiFi credentials extracted from " +:+
                              device_name +:+ "!") None) w1))
    with
    | (Returned true, w3) =>
        (Returned true,
         emit (EvLog INFO "Successfully connected to WiFi network!" None) w3)
    | (Returned false, w3) =>
        (Returned false,
         emit (EvLog ERROR "Failed to connect to WiFi network" None) w3)
    | (Raised e, w3) =>
        (Returned false,
         emit (EvLog ERROR "Error extracting WiFi credentials: " (Some e)) w3)
    end.
Proof.
  intros Hsim Es Hs Ep Hp. unfold attempt_line in Hsim.
  assert (Hf : credentials_found (Some d) = true).
  { apply credentials_found_spec. exists d, ssid, password. auto. }
  unfold extract_wifi_credentials_with, subscript, dict_getitem. unfold_py.
  rewrite Hsim, Hf, Es, Ep.
  destruct (connect_to_wifi env ssid password _) as [[[|] | e] w3] eqn:Hc;
    try reflexivity.
  apply connect_raises_OSError in Hc as (errno & f & ->). reflexivity.
Qed.

Lemma extract_sim_raises env (sim : Extractor) device_path device_name w e w1 :
  sim device_path device_name (emit (attempt_line device_name) w)
    = (Raised e, w1) ->
  is_Exception e = true ->
  extract_wifi_credentials_with env sim device_path device_name w =
    (Returned false,
     emit (EvLog ERROR "Error extracting WiFi credentials: " (Some e)) w1).
Proof.
  intros Hsim He. unfold attempt_line in Hsim.
  unfold extract_wifi_credentials_with. unfold_py.
  rewrite Hsim, He. reflexivity.
Qed.

Lemma extract_returns env (sim : Extractor) device_path device_name :
  errors_only (sim device_path device_name) ->
  returns (extract_wifi_credentials_with env sim device_path device_name).
Proof.
  intros Hsim w.
  destruct (sim device_path device_name (emit (attempt_line device_name) w))
    as [[credentials | e] w1] eqn:Hrun.
  - destruct (credentials_found credentials) eqn:Hf.
    + apply credentials_found_spec in Hf
        as (d & ssid & password & -> & Es & Hs & Ep & Hp).
      rewrite (extract_found env sim _ _ _ _ _ _ _ Hrun Es Hs Ep Hp).
      destruct (connect_to_wifi env ssid password _) as [[[|] | e] w3]; eauto.
    + rewrite (extract_not_found env sim _ _ _ _ _ Hrun Hf). eauto.
  - rewrite (extract_sim_raises env sim _ _ _ _ _ Hrun (Hsim _ _ _ Hrun)).
    eauto.
Qed.

Lemma simulate_returns_None device_path device_name w :
  simulate_credential_extraction device_path device_name w =
    (Returned None,
     emit (EvLog INFO "Credential extraction simulation complete" None)
       (advance 2 (emit (EvSleep 2) w))).
Proof. reflexivity. Qed.

Lemma extract_stub env device_path device_name w :
  extract_wifi_credentials env device_path device_name w =
    (Returned false,
     emit (EvLog INFO ("No WiFi credentials found on " +:+ device_name) None)
       (emit (EvLog INFO "Credential extraction simulation complete" None)
          (advance 2 (emit (EvSleep 2) (emit (attempt_line device_name) w))))).
Proof.
  unfold extract_wifi_credentials.
  erewrite extract_not_found; [reflexivity | apply simulate_returns_None |].
  reflexivity.
Qed.

(** C3 as the code has it.  When the extraction returns no credentials, or
    credentials that fail the test of line 215, extract_wifi_credentials
    logs one line and returns False: the extraction has been called once,
    in the world that the first log line left, and nothing follows it, no
    counter, no second request and no backoff. *)
Theorem C3_single_attempt env (sim : Extractor) device_path device_name w
    credentials w1 :
  sim device_path device_name (emit (attempt_line device_name) w)
    = (Returned credentials, w1) ->
  credentials_found credentials = false ->
  extract_wifi_credentials_with env sim device_path device_name w =
    (Returned false,
     emit (EvLog INFO ("No WiFi credentials found on " +:+ device_name) None) w1)
  /\ new_events w1
       (snd (extract_wifi_credentials_with env sim device_path device_name w))
     = [EvLog INFO ("No WiFi credentials found on " +:+ device_name) None].
Proof.
  intros Hsim Hf. rewrite (extract_not_found env sim _ _ _ _ _ Hsim Hf).
  split; [reflexivity |]. norm_events. reflexivity.
Qed.

Lemma C3_single_attempt_witness :
  sim_empty_slow phone_path "Pixel" (emit (attempt_line "Pixel") w0)
    = (Returned (Some ∅),
       emit (EvLog INFO "Credential extraction simulation complete" None)
         (advance 2 (emit (EvSleep 2) (emit (attempt_line "Pixel") w0)))) /\
  fst (extract_wifi_credentials_with env_ok sim_empty_slow phone_path "Pixel" w0)
    = Returned false.
Proof.
  assert (Hsim :
    sim_empty_slow phone_path "Pixel" (emit (attempt_line "Pixel") w0)
    = (Returned (Some ∅),
       emit (EvLog INFO "Credential extraction simulation complete" None)
         (advance 2 (emit (EvSleep 2) (emit (attempt_line "Pixel") w0)))))
    by reflexivity.
  assert (Hf : credentials_found (Some (∅ : gmap string string)) = false)
    by reflexivity.
  split; [exact Hsim |].
  rewrite (proj1 (C3_single_attempt env_ok sim_empty_slow phone_path "Pixel"
                    w0 _ _ Hsim Hf)).
  reflexivity.
Defined.

(** C3 as stated fails.  A peer answers with the empty payload (and the
    stub of the source answers None): the extraction is started once, the
    only sleep is the one inside the extraction itself, and the result is
    False at once, not after three attempts. *)
Lemma C3_counterexample :
  fst (extract_wifi_credentials_with env_ok sim_empty_slow phone_path "Pixel" w0)
    = Returned false /\
  attempts (trace (snd (extract_wifi_credentials_with env_ok sim_empty_slow
                          phone_path "Pixel" w0))) = 1%nat /\
  sleeps (trace (snd (extract_wifi_credentials_with env_ok sim_empty_slow
                        phone_path "Pixel" w0))) = [2] /\
  fst (extract_wifi_credentials env_ok phone_path "Pixel" w0)
    = Returned false /\
  attempts (trace (snd (extract_wifi_credentials env_ok phone_path "Pixel" w0)))
    = 1%nat.
Proof. vm_compute. repeat split; reflexivity. Qed.

Lemma system_effects_app tr tr' :
  system_effects (tr ++ tr') = system_effects tr ++ system_effects tr'.
Proof. apply List.filter_app. Qed.

(** C8. The credentials are tested before they are used.  The test of
    line 215 holds exactly when a dictionary is present and gives a
    non-empty ssid and a non-empty password.  When it fails,
    extract_wifi_credentials returns False having run no command and
    opened no file; when it holds, connect_to_wifi is called with exactly
    that ssid and that password. *)
Theorem C8_validated_before_apply env (sim : Extractor) device_path
    device_name w credentials w1 :
  sim device_path device_name (emit (attempt_line device_name) w)
    = (Returned credentials, w1) ->
  (credentials_found credentials = true <->
   exists d ssid password,
     credentials = Some d /\
     d !! "ssid" = Some ssid /\ ssid ≠ "" /\
     d !! "password" = Some password /\ password ≠ "") /\
  (credentials_found credentials = false ->
   extract_wifi_credentials_with env sim device_path device_name w =
     (Returned false,
      emit (EvLog INFO ("No WiFi credentials found on " +:+ device_name) None)
        w1) /\
   system_effects
     (new_events w1
        (snd (extract_wifi_credentials_with env sim device_path device_name w)))
     = []) /\
  (forall d ssid password,
     credentials = Some d ->
     d !! "ssid" = Some ssid -> ssid ≠ "" ->
     d !! "password" = Some password -> password ≠ "" ->
     extract_wifi_credentials_with env sim device_path device_name w =
       match
         connect_to_wifi env ssid password
           (emit (EvLog INFO ("Network: " +:+ ssid) None)
              (emit (EvLog INFO ("WiFi credentials extracted from " +:+
                                 device_name +:+ "!") None) w1))
       with
       | (Returned true, w3) =>
           (Returned true,
            emit (EvLog INFO "Successfully connected to WiFi network!" None) w3)
       | (Returned false, w3) =>
           (Returned false,
            emit (EvLog ERROR "Failed to connect to WiFi network" None) w3)
       | (Raised e, w3) =>
           (Returned false,
            emit (EvLog ERROR "Error extracting WiFi credentials: " (Some e)) w3)
       end).
Proof.
  intros Hsim. split; [apply credentials_found_spec |]. split.
  - intros Hf. rewrite (extract_not_found env sim _ _ _ _ _ Hsim Hf).
    split; [reflexivity |]. norm_events. reflexivity.
  - intros d ssid password -> Es Hs Ep Hp.
    now apply extract_found with d.
Qed.

Lemma C8_validated_before_apply_witness :
  sim_no_secret phone_path "Pixel" (emit (attempt_line "Pixel") w0)
    = (Returned (Some (<["ssid" := "HomeNet"]> ∅)),
       emit (attempt_line "Pixel") w0) /\
  extract_wifi_credentials_with env_ok sim_no_secret phone_path "Pixel" w0 =
    (Returned false,
     emit (EvLog INFO "No WiFi credentials found on Pixel" None)
       (emit (attempt_line "Pixel") w0)).
Proof.
  assert (Hsim :
    sim_no_secret phone_path "Pixel" (emit (attempt_line "Pixel") w0)
    = (Returned (Some (<["ssid" := "HomeNet"]> ∅)),
       emit (attempt_line "Pixel") w0)) by reflexivity.
  split; [exact Hsim |].
  apply (proj1 (proj2 (C8_validated_before_apply env_ok sim_no_secret
                         phone_path "Pixel" w0 _ _ Hsim))).
  vm_compute. reflexivity.
Defined.

(** ** on_device_connected *)

Lemma on_device_connected_stub env path interfaces w :
  let run := on_device_connected env path interfaces w in
  fst run = Returned tt /\
  connected_devices (snd run) =
    match interfaces !! "org.bluez.Device1" with
    | Some _ => {[path]} ∪ connected_devices w
    | None => connected_devices w
    end /\
  files (snd run) = files w /\
  trace (snd run) =
    trace w ++
    match interfaces !! "org.bluez.Device1" with
    | Some device => exchange_events device
    | None => []
    end.
Proof.
  unfold on_device_connected, on_device_connected_with.
  destruct (interfaces !! "org.bluez.Device1") as [device |]; cbn.
  - unfold_py.
    pose proof (extract_stub env path
                  (default "Unknown Device" (device !! "Name"))) as Hx.
    unfold extract_wifi_credentials in Hx. rewrite Hx. cbn.
    rewrite <- !app_assoc. auto.
  - rewrite app_nil_r. auto.
Qed.

(** C9. simulate_credential_extraction returns None for every device.
    Hence extract_wifi_credentials returns False, and neither it nor
    on_device_connected nor any sequence of notifications runs a command,
    opens a file or changes a file: connect_to_wifi is not reached and the
    credential store is not written. *)
Theorem C9_stub_never_provisions env :
  (forall device_path device_name w,
     fst (simulate_credential_extraction device_path device_name w)
       = Returned None) /\
  (forall device_path device_name w,
     let run := extract_wifi_credentials env device_path device_name w in
     fst run = Returned false /\ files (snd run) = files w /\
     system_effects (trace (snd run)) = system_effects (trace w)) /\
  (forall path interfaces w,
     let run := on_device_connected env path interfaces w in
     fst run = Returned tt /\ files (snd run) = files w /\
     system_effects (trace (snd run)) = system_effects (trace w)) /\
  (forall signals w,
     let run := dispatch env simulate_credential_extraction signals w in
     fst run = Returned tt /\ files (snd run) = files w /\
     system_effects (trace (snd run)) = system_effects (trace w)).
Proof.
  assert (Hconn : forall path interfaces w,
     let run := on_device_connected env path interfaces w in
     fst run = Returned tt /\ files (snd run) = files w /\
     system_effects (trace (snd run)) = system_effects (trace w)).
  { intros path interfaces w run.
    destruct (on_device_connected_stub env path interfaces w)
      as (Hr & _ & Hf & Ht).
    fold run in Hr, Hf, Ht. split; [exact Hr |]. split; [exact Hf |].
    rewrite Ht, system_effects_app.
    destruct (interfaces !! "org.bluez.Device1"); cbn; apply app_nil_r. }
  split; [reflexivity |]. split; [| split; [exact Hconn |]].
  - intros device_path device_name w. cbn zeta. rewrite extract_stub. cbn.
    split; [reflexivity |]. split; [reflexivity |].
    rewrite !system_effects_app. cbn. now rewrite !app_nil_r.
  - induction signals as [| s rest IH]; intros w; [cbn; auto |].
    cbn [dispatch]. unfold mbind, M_bind, bind.
    destruct s as [path interfaces | path interfaces]; cbn [deliver].
    + destruct (Hconn path interfaces w) as (Hr & Hf & Ht).
      unfold on_device_connected in Hr, Hf, Ht.
      destruct (on_device_connected_with env simulate_credential_extraction
                  path interfaces w) as [r w1].
      cbn in Hr, Hf, Ht. subst r.
      destruct (IH w1) as (Hr' & Hf' & Ht').
      split; [exact Hr' |]. split; congruence.
    + destruct (decide (path ∈ connected_devices w)) as [Hin | Hout].
      * rewrite (disconnect_present _ _ _ Hin).
        match goal with
        | |- context [dispatch _ _ rest ?w1] =>
            destruct (IH w1) as (Hr' & Hf' & Ht')
        end.
        split; [exact Hr' |]. split; [exact Hf' |].
        rewrite Ht'. cbn. rewrite system_effects_app. cbn. apply app_nil_r.
      * rewrite (disconnect_absent _ _ _ Hout). apply IH.
Qed.

Lemma add_tracked (path : string) (s : gset string) :
  path ∈ s -> {[path]} ∪ s = s.
Proof.
  intros Hin. apply set_eq. intros x.
  rewrite elem_of_union, elem_of_singleton.
  split; [intros [-> | H]; assumption | auto].
Qed.

(** C6. The tracked peers form a set.  A connect notification for a path
    that is already tracked leaves the set as it is; after two
    notifications for the same device the path is tracked once, and the
    second exchange starts only after the first has ended: the trace is
    the events of the first exchange followed by those of the second.  In
    every world reached by delivering notifications no path is listed
    twice. *)
Theorem C6_one_entry_per_peer env path w :
  (forall interfaces,
     path ∈ connected_devices w ->
     connected_devices (snd (on_device_connected env path interfaces w))
       = connected_devices w) /\
  (forall interfaces interfaces' device device',
     interfaces !! "org.bluez.Device1" = Some device ->
     interfaces' !! "org.bluez.Device1" = Some device' ->
     let w1 := snd (on_device_connected env path interfaces w) in
     let w2 := snd (on_device_connected env path interfaces' w1) in
     path ∈ connected_devices w1 /\
     connected_devices w2 = connected_devices w1 /\
     size (connected_devices w2) = size (connected_devices w1) /\
     trace w2 = trace w ++ exchange_events device ++ exchange_events device') /\
  (forall signals,
     NoDup (elements (connected_devices
       (snd (dispatch env simulate_credential_extraction signals w))))).
Proof.
  assert (Hkeep : forall interfaces w0,
     path ∈ connected_devices w0 ->
     connected_devices (snd (on_device_connected env path interfaces w0))
       = connected_devices w0).
  { intros interfaces w0 Hin.
    destruct (on_device_connected_stub env path interfaces w0)
      as (_ & Hd & _).
    cbn zeta in Hd. rewrite Hd.
    destruct (interfaces !! "org.bluez.Device1"); [| reflexivity].
    now apply add_tracked. }
  split; [intros interfaces; apply Hkeep |]. split.
  - intros interfaces interfaces' device device' Hi Hi' w1 w2.
    destruct (on_device_connected_stub env path interfaces w)
      as (_ & Hd & _ & Ht).
    destruct (on_device_connected_stub env path interfaces' w1)
      as (_ & _ & _ & Ht').
    cbn zeta in Hd, Ht, Ht'. fold w1 in Hd, Ht. fold w2 in Ht'.
    rewrite Hi in Hd, Ht. rewrite Hi' in Ht'.
    assert (Hin : path ∈ connected_devices w1).
    { rewrite Hd. apply elem_of_union_l, elem_of_singleton. reflexivity. }
    assert (Heq : connected_devices w2 = connected_devices w1)
      by (apply Hkeep, Hin).
    split; [exact Hin |]. split; [exact Heq |].
    split; [now rewrite Heq |].
    rewrite Ht', Ht. now rewrite <- app_assoc.
  - intros signals. apply NoDup_elements.
Qed.

Lemma C6_one_entry_per_peer_witness :
  let w1 := snd (on_device_connected env_ok phone_path phone w0) in
  let w2 := snd (on_device_connected env_ok phone_path phone w1) in
  phone !! "org.bluez.Device1"
    = Some (<["Name" := "Pixel"]> (<["Address" := "AA:BB:CC:DD:EE:FF"]> ∅)) /\
  connected_devices w2 = connected_devices w1 /\
  elements (connected_devices w2) = [phone_path].
Proof.
  intros w1 w2.
  assert (Hp : phone !! "org.bluez.Device1"
    = Some (<["Name" := "Pixel"]> (<["Address" := "AA:BB:CC:DD:EE:FF"]> ∅)))
    by (vm_compute; reflexivity).
  split; [exact Hp |].
  destruct (proj1 (proj2 (C6_one_entry_per_peer env_ok phone_path w0))
              phone phone _ _ Hp Hp) as (_ & Heq & _).
  split; [exact Heq |]. vm_compute. reflexivity.
Defined.

(** ** Errors stay inside the handlers *)

Lemma on_device_connected_returns env (sim : Extractor) path interfaces :
  (forall device_path device_name, errors_only (sim device_path device_name)) ->
  returns (on_device_connected_with env sim path interfaces).
Proof.
  intros Hsim w. unfold on_device_connected_with.
  destruct (interfaces !! "org.bluez.Device1") as [device |]; unfold_py.
  - match goal with
    | |- context [extract_wifi_credentials_with env sim ?p ?n ?w1] =>
        destruct (extract_returns env sim p n (Hsim p n) w1) as (b & w2 & Hx)
    end.
    rewrite Hx. eauto.
  - eauto.
Qed.

Lemma on_device_disconnected_returns path interfaces :
  returns (on_device_disconnected path interfaces).
Proof.
  intros w. destruct (decide (path ∈ connected_devices w)) as [Hin | Hout].
  - rewrite (disconnect_present _ _ _ Hin). eauto.
  - rewrite (disconnect_absent _ _ _ Hout). eauto.
Qed.

Lemma dispatch_returns env (sim : Extractor) signals :
  (forall device_path device_name, errors_only (sim device_path device_name)) ->
  returns (dispatch env sim signals).
Proof.
  intros Hsim. induction signals as [| s rest IH]; intros w.
  - cbn. unfold mret, M_ret, ret. eauto.
  - cbn [dispatch]. unfold mbind, M_bind, bind.
    assert (Hd : exists a w1, deliver env sim s w = (Returned a, w1)).
    { destruct s as [path interfaces | path interfaces]; cbn [deliver].
      - now apply on_device_connected_returns.
      - apply on_device_disconnected_returns. }
    destruct Hd as (a & w1 & ->). apply IH.
Qed.

(** C7. Whatever the extraction and the environment do, as long as what is
    raised is an instance of Exception (an I/O error, a failed command, a
    missing key), on_device_connected, on_device_disconnected and
    extract_wifi_credentials return normally, and so does the delivery of
    any sequence of notifications: the error of one notification does not
    stop the next one.  An error raised by the extraction is logged by
    extract_wifi_credentials, which then returns False. *)
Theorem C7_errors_stay_in_handler env (sim : Extractor) :
  (forall device_path device_name, errors_only (sim device_path device_name)) ->
  (forall path interfaces,
     returns (on_device_connected_with env sim path interfaces)) /\
  (forall path interfaces, returns (on_device_disconnected path interfaces)) /\
  (forall device_path device_name,
     returns (extract_wifi_credentials_with env sim device_path device_name)) /\
  (forall signals, returns (dispatch env sim signals)) /\
  (forall device_path device_name w e w1,
     sim device_path device_name (emit (attempt_line device_name) w)
       = (Raised e, w1) ->
     extract_wifi_credentials_with env sim device_path device_name w =
       (Returned false,
        emit (EvLog ERROR "Error extracting WiFi credentials: " (Some e)) w1)).
Proof.
  intros Hsim.
  split; [intros; now apply on_device_connected_returns |].
  split; [intros; apply on_device_disconnected_returns |].
  split; [intros; apply extract_returns, Hsim |].
  split; [intros; now apply dispatch_returns |].
  intros device_path device_name w e w1 Hrun.
  apply extract_sim_raises; [exact Hrun |].
  exact (Hsim _ _ _ _ _ Hrun).
Qed.

Lemma C7_errors_stay_in_handler_witness :
  (forall device_path device_name,
     errors_only (sim_io_error device_path device_name)) /\
  (exists w',
     on_device_connected_with env_ok sim_io_error phone_path phone w0
       = (Returned tt, w')) /\
  (exists w',
     on_device_connected_with env_tmp_denied sim_homenet phone_path phone w0
       = (Returned tt, w')).
Proof.
  assert (H1 : forall device_path device_name,
             errors_only (sim_io_error device_path device_name)).
  { intros device_path device_name w e w' H. injection H as <- _.
    reflexivity. }
  assert (H2 : forall device_path device_name,
             errors_only (sim_homenet device_path device_name)).
  { intros device_path device_name w e w' H. discriminate H. }
  split; [exact H1 |]. split.
  - destruct (proj1 (C7_errors_stay_in_handler env_ok sim_io_error H1)
                phone_path phone w0) as ([] & w' & Hr).
    exists w'. exact Hr.
  - destruct (proj1 (C7_errors_stay_in_handler env_tmp_denied sim_homenet H2)
                phone_path phone w0) as ([] & w' & Hr).
    exists w'. exact Hr.
Defined.

(** * Further properties of the code *)

(** ** connect_to_wifi, step by step *)

Ltac unfold_obs :=
  unfold io_breaks, commands_reached, spawns in *; unfold_env.

(** connect_to_wifi stops at the first command that fails: the restart is
    run only after the copy has exited with status zero, iwconfig only
    after the restart has, and no command at all when the configuration
    file cannot be written. *)
Theorem connect_commands_fail_fast env ssid password w :
  commands (new_events w (snd (connect_to_wifi env ssid password w)))
    = commands_reached env (now w).
Proof.
  unfold_obs. unfold connect_to_wifi. unfold_io. unfold_py. cbn.
  repeat env_case; norm_events; reflexivity.
Qed.

(** connect_to_wifi never changes the tracked devices; the only files it
    opens itself are /tmp/wpa_supplicant.conf and the credential store;
    and it sleeps, ten seconds, exactly when the configuration was
    applied (copy and restart both exited with status zero): a run that
    fails earlier does not wait. *)
Theorem connect_frame_and_clock env ssid password w :
  connected_devices (snd (connect_to_wifi env ssid password w))
    = connected_devices w /\
  (forall path,
     path ∈ opened (new_events w (snd (connect_to_wifi env ssid password w))) ->
     path = tmp_conf \/ path = config_file) /\
  sleeps (new_events w (snd (connect_to_wifi env ssid password w)))
    = (if applied env (now w) then [10] else []) /\
  now (snd (connect_to_wifi env ssid password w))
    = now w + (if applied env (now w) then 10 else 0).
Proof.
  split; [| split; [| split]].
  - unfold connect_to_wifi. unfold_io. unfold_py. cbn.
    repeat env_case; reflexivity.
  - unfold connect_to_wifi. unfold_io. unfold_py. cbn.
    repeat env_case; norm_events; intros path Hin;
      repeat (apply elem_of_cons in Hin as [Hin | Hin]; [auto |]);
      now apply elem_of_nil in Hin.
  - unfold_obs. unfold connect_to_wifi. unfold_io. unfold_py. cbn.
    repeat env_case; norm_events; reflexivity.
  - unfold_obs. unfold connect_to_wifi. unfold_io. unfold_py. cbn.
    repeat env_case; cbn; lia.
Qed.

Lemma connect_frame_and_clock_witness :
  (config_file
     ∈ opened (new_events w_old
                 (snd (connect_to_wifi env_ok "HomeNet" "s3cret123" w_old)))) /\
  (config_file = tmp_conf \/ config_file = config_file).
Proof.
  assert (Hin : config_file
     ∈ opened (new_events w_old
                 (snd (connect_to_wifi env_ok "HomeNet" "s3cret123" w_old))))
    by (vm_compute; apply list_elem_of_further, list_elem_of_here).
  split; [exact Hin |].
  exact (proj1 (proj2 (connect_frame_and_clock env_ok "HomeNet" "s3cret123"
                         w_old)) _ Hin).
Defined.

Lemma connect_raises_iff env ssid password w :
  match fst (connect_to_wifi env ssid password w) with
  | Returned _ => io_breaks env (now w) = false
  | Raised (OSError _ _) => io_breaks env (now w) = true
  | Raised _ => False
  end.
Proof.
  unfold_obs. unfold connect_to_wifi. unfold_io. unfold_py. cbn.
  repeat env_case; reflexivity.
Qed.

Lemma connect_true_post env ssid password w :
  fst (connect_to_wifi env ssid password w) = Returned true ->
  verified env (now w) = true /\
  store (snd (connect_to_wifi env ssid password w))
    = Some (json_dumps (credentials_dict ssid password)) /\
  files (snd (connect_to_wifi env ssid password w)) !! tmp_conf
    = Some (wpa_config ssid password).
Proof.
  unfold_obs. unfold store, connect_to_wifi. unfold_io. unfold_py. cbn.
  repeat env_case; intros H; try discriminate H.
  split; [reflexivity |].
  rewrite !lookup_insert_eq. cbn. split; [reflexivity |].
  rewrite !lookup_insert_ne by discriminate.
  rewrite !lookup_insert_eq. reflexivity.
Qed.

Lemma connect_true_iff env ssid password w :
  fst (connect_to_wifi env ssid password w) = Returned true <->
  verified env (now w) && writable env (now w + 10) config_file = true.
Proof.
  split.
  - intros Ht. destruct (connect_true_post env ssid password w Ht) as (Hv & _).
    pose proof (connect_raises_iff env ssid password w) as Hio.
    rewrite Ht in Hio. unfold io_breaks in Hio. rewrite Hv in Hio.
    rewrite Hv. cbn.
    destruct (writable env (now w + 10) config_file); [reflexivity |].
    cbn in Hio. rewrite !orb_true_r in Hio. discriminate Hio.
  - intros H. apply andb_true_iff in H as [Hv Hw].
    now apply connect_verified.
Qed.

(** connect_to_wifi returns True exactly when the configuration was
    applied, the check reported an association and the store could be
    written.  Whenever it returns True, the store holds the credentials
    and /tmp/wpa_supplicant.conf holds the configuration made from
    them. *)
Theorem connect_true_postcondition env ssid password w :
  (fst (connect_to_wifi env ssid password w) = Returned true <->
   verified env (now w) && writable env (now w + 10) config_file = true) /\
  (fst (connect_to_wifi env ssid password w) = Returned true ->
   store (snd (connect_to_wifi env ssid password w))
     = Some (json_dumps (credentials_dict ssid password)) /\
   files (snd (connect_to_wifi env ssid password w)) !! tmp_conf
     = Some (wpa_config ssid password)).
Proof.
  split; [apply connect_true_iff |].
  intros Ht. now destruct (connect_true_post env ssid password w Ht) as (_ & H).
Qed.

Lemma connect_true_postcondition_witness :
  fst (connect_to_wifi env_ok "HomeNet" "s3cret123" w_old) = Returned true /\
  files (snd (connect_to_wifi env_ok "HomeNet" "s3cret123" w_old)) !! tmp_conf
    = Some (wpa_config "HomeNet" "s3cret123").
Proof.
  assert (Ht : fst (connect_to_wifi env_ok "HomeNet" "s3cret123" w_old)
               = Returned true) by (vm_compute; reflexivity).
  split; [exact Ht |].
  exact (proj2 (proj2 (connect_true_postcondition env_ok "HomeNet" "s3cret123"
                         w_old) Ht)).
Defined.

(** When everything up to the check succeeds and the store can be opened
    but not written (a full disk), connect_to_wifi raises the OSError of
    the write and leaves the store empty: the record that was there is
    lost. *)
Theorem connect_store_lost_on_write_error env ssid password w errno :
  verified env (now w) = true ->
  open_errno env (now w + 10) config_file = None ->
  write_errno env (now w + 10) config_file = Some errno ->
  fst (connect_to_wifi env ssid password w)
    = Raised (OSError errno config_file) /\
  store (snd (connect_to_wifi env ssid password w)) = Some "".
Proof.
  unfold_obs. unfold store, connect_to_wifi. unfold_io. unfold_py. cbn.
  repeat env_case; intros H1 H2 H3; simplify_eq; try discriminate.
  split; [reflexivity |]. rewrite lookup_insert_eq. reflexivity.
Qed.

Lemma connect_store_lost_on_write_error_witness :
  verified env_store_full (now w_old) = true /\
  store w_old = Some old_record /\
  store (snd (connect_to_wifi env_store_full "HomeNet" "s3cret123" w_old))
    = Some "".
Proof.
  assert (Hv : verified env_store_full (now w_old) = true)
    by (vm_compute; reflexivity).
  assert (Ho : open_errno env_store_full (now w_old + 10) config_file = None)
    by reflexivity.
  assert (Hw : write_errno env_store_full (now w_old + 10) config_file = Some 28)
    by (vm_compute; reflexivity).
  split; [exact Hv |]. split; [vm_compute; reflexivity |].
  exact (proj2 (connect_store_lost_on_write_error env_store_full "HomeNet"
                  "s3cret123" w_old 28 Hv Ho Hw)).
Defined.

(** ** extract_wifi_credentials with credentials at hand *)

(** When the extraction hands over a dictionary with a non-empty ssid and
    a non-empty password, extract_wifi_credentials returns True exactly
    when the configuration is applied, the check reports an association
    and the store can be written, all as of the time the extraction
    ended; every failure of connect_to_wifi, raised or returned, becomes
    False.  On True the store holds those credentials. *)
Theorem extract_result_for_valid_credentials env (sim : Extractor)
    device_path device_name w d ssid password w1 :
  sim device_path device_name (emit (attempt_line device_name) w)
    = (Returned (Some d), w1) ->
  d !! "ssid" = Some ssid -> ssid ≠ "" ->
  d !! "password" = Some password -> password ≠ "" ->
  fst (extract_wifi_credentials_with env sim device_path device_name w)
    = Returned (verified env (now w1)
                && writable env (now w1 + 10) config_file) /\
  (fst (extract_wifi_credentials_with env sim device_path device_name w)
     = Returned true ->
   store (snd (extract_wifi_credentials_with env sim device_path device_name w))
     = Some (json_dumps (credentials_dict ssid password))).
Proof.
  intros Hsim Es Hs Ep Hp.
  rewrite (extract_found env sim _ _ _ _ _ _ _ Hsim Es Hs Ep Hp).
  match goal with
  | |- context [connect_to_wifi env ssid password ?w2] => set (w2' := w2)
  end.
  pose proof (connect_true_iff env ssid password w2') as Hiff.
  pose proof (connect_true_post env ssid password w2') as Hpost.
  change (now w2') with (now w1) in Hiff.
  destruct (connect_to_wifi env ssid password w2') as [[[|] | e] w3];
    cbn in *.
  - rewrite (proj1 Hiff eq_refl). split; [reflexivity |].
    intros _. now destruct (Hpost eq_refl) as (_ & Hst & _).
  - destruct (verified env (now w1) && writable env (now w1 + 10) config_file).
    + destruct Hiff as [_ Hiff]. discriminate (Hiff eq_refl).
    + split; [reflexivity | discriminate].
  - destruct (verified env (now w1) && writable env (now w1 + 10) config_file).
    + destruct Hiff as [_ Hiff]. discriminate (Hiff eq_refl).
    + split; [reflexivity | discriminate].
Qed.

Lemma extract_result_for_valid_credentials_witness :
  sim_homenet phone_path "Pixel" (emit (attempt_line "Pixel") w_old)
    = (Returned (Some (<["ssid" := "HomeNet"]> (<["password" := "s3cret123"]> ∅))),
       emit (attempt_line "Pixel") w_old) /\
  "HomeNet" ≠ "" /\ "s3cret123" ≠ "" /\
  fst (extract_wifi_credentials_with env_store_full sim_homenet phone_path
         "Pixel" w_old) = Returned false.
Proof.
  assert (Hsim :
    sim_homenet phone_path "Pixel" (emit (attempt_line "Pixel") w_old)
    = (Returned (Some (<["ssid" := "HomeNet"]> (<["password" := "s3cret123"]> ∅))),
       emit (attempt_line "Pixel") w_old)) by reflexivity.
  assert (Hs : "HomeNet" ≠ "") by discriminate.
  assert (Hp : "s3cret123" ≠ "") by discriminate.
  assert (Es : (<["ssid" := "HomeNet"]> (<["password" := "s3cret123"]> ∅)
                : gmap string string) !! "ssid" = Some "HomeNet")
    by (vm_compute; reflexivity).
  assert (Ep : (<["ssid" := "HomeNet"]> (<["password" := "s3cret123"]> ∅)
                : gmap string string) !! "password" = Some "s3cret123")
    by (vm_compute; reflexivity).
  split; [exact Hsim |]. split; [exact Hs |]. split; [exact Hp |].
  rewrite (proj1 (extract_result_for_valid_credentials env_store_full
                    sim_homenet phone_path "Pixel" w_old _ _ _ _
                    Hsim Es Hs Ep Hp)).
  vm_compute. reflexivity.
Defined.

(** ** check_dependencies *)

Lemma emit_all_nil w : emit_all [] w = w.
Proof. destruct w. unfold emit_all. cbn. now rewrite app_nil_r. Qed.

Lemma emit_all_cons ev evs w :
  emit_all evs (emit ev w) = emit_all (ev :: evs) w.
Proof. unfold emit_all, emit. cbn. now rewrite <- app_assoc. Qed.

Lemma emit_all_snoc ev evs w :
  emit ev (emit_all evs w) = emit_all (evs ++ [ev]) w.
Proof. unfold emit_all, emit. cbn. now rewrite <- app_assoc. Qed.

Lemma new_events_emit_all evs w : new_events w (emit_all evs w) = evs.
Proof. unfold new_events, emit_all. cbn. apply drop_app_length. Qed.

Lemma commands_app tr tr' : commands (tr ++ tr') = commands tr ++ commands tr'.
Proof.
  induction tr as [| ev tr IH]; [reflexivity |].
  destruct ev; cbn; now rewrite IH.
Qed.

Lemma commands_runs (l : list (list string)) : commands (map EvRun l) = l.
Proof. induction l as [| a l IH]; [reflexivity |]. cbn. now rewrite IH. Qed.

Lemma check_packages_spec env packages : forall missing w,
  forallb (fun p => spawns (proc env (now w) (dpkg_argv p))) packages = true ->
  check_packages env packages missing w =
    (Returned (missing ++ missing_of env (now w) packages),
     emit_all (map (fun p => EvRun (dpkg_argv p)) packages) w).
Proof.
  induction packages as [| p rest IH]; intros missing w Hs.
  - cbn. unfold mret, M_ret, ret. now rewrite app_nil_r, emit_all_nil.
  - cbn in Hs. apply andb_true_iff in Hs as [Hp Hrest].
    cbn [check_packages]. unfold subprocess_run. unfold_py.
    destruct (proc env (now w) (dpkg_argv p)) as [rc out |] eqn:Hproc;
      [| discriminate].
    cbn [List.filter map]. unfold missing_of in *. cbn [List.filter].
    rewrite Hproc. cbn.
    destruct (rc =? 0)%Z; cbn.
    + rewrite IH by exact Hrest. cbn. now rewrite emit_all_cons.
    + rewrite IH by exact Hrest. cbn. rewrite emit_all_cons.
      now rewrite <- app_assoc.
Qed.

Lemma check_packages_frame env packages : forall missing w,
  connected_devices (snd (check_packages env packages missing w))
    = connected_devices w /\
  files (snd (check_packages env packages missing w)) = files w /\
  now (snd (check_packages env packages missing w)) = now w.
Proof.
  induction packages as [| p rest IH]; intros missing w; [cbn; auto |].
  cbn [check_packages]. unfold subprocess_run. unfold_py.
  destruct (proc env (now w) (dpkg_argv p)) as [rc out |]; cbn; [| auto].
  destruct (rc =? 0)%Z; cbn;
    match goal with
    | |- context [check_packages env rest ?m ?w1] =>
        destruct (IH m w1) as (H1 & H2 & H3)
    end; cbn in *; auto.
Qed.

Lemma check_packages_raises env packages : forall missing w e w',
  check_packages env packages missing w = (Raised e, w') ->
  forallb (fun p => spawns (proc env (now w) (dpkg_argv p))) packages = false /\
  exists errno, e = OSError errno "dpkg".
Proof.
  induction packages as [| p rest IH]; intros missing w e w'; [discriminate |].
  cbn [check_packages forallb]. unfold subprocess_run. unfold_py.
  destruct (proc env (now w) (dpkg_argv p)) as [rc out |]; cbn.
  - destruct (rc =? 0)%Z; cbn; intros H; apply IH in H; exact H.
  - intros H. injection H as <- _. eauto.
Qed.

Lemma check_packages_returns env packages : forall missing w m w',
  check_packages env packages missing w = (Returned m, w') ->
  forallb (fun p => spawns (proc env (now w) (dpkg_argv p))) packages = true.
Proof.
  induction packages as [| p rest IH]; intros missing w m w'; [reflexivity |].
  cbn [check_packages forallb]. unfold subprocess_run. unfold_py.
  destruct (proc env (now w) (dpkg_argv p)) as [rc out |]; cbn;
    [| discriminate].
  destruct (rc =? 0)%Z; cbn; intros H; apply IH in H; exact H.
Qed.

Lemma missing_of_nil env t packages :
  missing_of env t packages = [] <->
  forallb (fun p => exits_zero (proc env t (dpkg_argv p))) packages = true.
Proof.
  induction packages as [| p rest IH]; [cbn; tauto |].
  unfold missing_of in *. cbn.
  destruct (exits_zero (proc env t (dpkg_argv p))); cbn; [exact IH |].
  split; discriminate.
Qed.

Lemma check_dependencies_spec env w :
  forallb (fun p => spawns (proc env (now w) (dpkg_argv p)))
    required_packages = true ->
  let missing := missing_of env (now w) required_packages in
  check_dependencies env w =
    (Returned (deps_installed env (now w)),
     emit_all
       (map (fun p => EvRun (dpkg_argv p)) required_packages ++
        match missing with
        | [] => []
        | _ :: _ =>
            [EvLog ERROR ("Missing packages: " +:+ String.concat ", " missing)
               None;
             EvLog INFO ("Install with: sudo apt update && sudo apt install "
                         +:+ String.concat " " missing) None]
        end) w) /\
  (deps_installed env (now w) = true <-> missing = []).
Proof.
  intros Hs missing. split; [| symmetry; apply missing_of_nil].
  unfold check_dependencies. unfold mbind, M_bind, bind.
  rewrite (check_packages_spec env required_packages [] w Hs).
  cbn [app]. fold missing.
  pose proof (missing_of_nil env (now w) required_packages) as Hnil.
  fold missing in Hnil. fold (deps_installed env (now w)) in Hnil.
  destruct missing as [| m rest].
  - rewrite (proj1 Hnil eq_refl). now rewrite app_nil_r.
  - destruct (deps_installed env (now w)).
    + destruct Hnil as [_ Hnil]. discriminate (Hnil eq_refl).
    + unfold_py. rewrite !emit_all_snoc. now rewrite <- app_assoc.
Qed.

(** When dpkg can be started, check_dependencies asks about all five
    packages, whatever the earlier answers, and returns True exactly when
    none is missing.  Otherwise it returns False after two log lines that
    list the missing packages in the order of the list of line 47, the
    first separated by commas, the second by spaces as arguments of
    apt install. *)
Theorem check_dependencies_reports_missing env w :
  forallb (fun p => spawns (proc env (now w) (dpkg_argv p)))
    required_packages = true ->
  let missing := missing_of env (now w) required_packages in
  check_dependencies env w =
    (Returned (deps_installed env (now w)),
     emit_all
       (map (fun p => EvRun (dpkg_argv p)) required_packages ++
        match missing with
        | [] => []
        | _ :: _ =>
            [EvLog ERROR ("Missing packages: " +:+ String.concat ", " missing)
               None;
             EvLog INFO ("Install with: sudo apt update && sudo apt install "
                         +:+ String.concat " " missing) None]
        end) w) /\
  (deps_installed env (now w) = true <-> missing = []).
Proof. exact (check_dependencies_spec env w). Qed.

Lemma check_dependencies_reports_missing_witness :
  forallb (fun p => spawns (proc env_missing_gi (now w0) (dpkg_argv p)))
    required_packages = true /\
  fst (check_dependencies env_missing_gi w0) = Returned false /\
  missing_of env_missing_gi (now w0) required_packages = ["python3-gi"].
Proof.
  assert (Hs :
    forallb (fun p => spawns (proc env_missing_gi (now w0) (dpkg_argv p)))
      required_packages = true) by (vm_compute; reflexivity).
  split; [exact Hs |].
  rewrite (proj1 (check_dependencies_reports_missing env_missing_gi w0 Hs)).
  split; vm_compute; reflexivity.
Defined.

Lemma check_dependencies_frame env w :
  connected_devices (snd (check_dependencies env w)) = connected_devices w /\
  files (snd (check_dependencies env w)) = files w /\
  now (snd (check_dependencies env w)) = now w /\
  match fst (check_dependencies env w) with
  | Returned _ =>
      forallb (fun p => spawns (proc env (now w) (dpkg_argv p)))
        required_packages = true
  | Raised e =>
      forallb (fun p => spawns (proc env (now w) (dpkg_argv p)))
        required_packages = false /\
      exists errno, e = OSError errno "dpkg"
  end.
Proof.
  destruct (check_packages_frame env required_packages [] w) as (H1 & H2 & H3).
  pose proof (check_packages_raises env required_packages [] w) as Hr.
  pose proof (check_packages_returns env required_packages [] w) as Hok.
  unfold check_dependencies. unfold mbind, M_bind, bind.
  destruct (check_packages env required_packages [] w) as [[missing | e] w1];
    cbn in H1, H2, H3.
  - specialize (Hok missing w1 eq_refl).
    destruct missing; unfold_py; cbn; auto.
  - cbn. destruct (Hr e w1 eq_refl) as (Hf & Hex). auto.
Qed.

(** check_dependencies never sleeps and leaves the tracked devices and
    the credential store as they are.  It raises exactly when some dpkg
    cannot be started, and what it then lets out is the OSError of that
    dpkg, which its handler for CalledProcessError does not catch. *)
Theorem check_dependencies_contained env w :
  connected_devices (snd (check_dependencies env w)) = connected_devices w /\
  store (snd (check_dependencies env w)) = store w /\
  now (snd (check_dependencies env w)) = now w /\
  match fst (check_dependencies env w) with
  | Returned _ =>
      forallb (fun p => spawns (proc env (now w) (dpkg_argv p)))
        required_packages = true
  | Raised e =>
      forallb (fun p => spawns (proc env (now w) (dpkg_argv p)))
        required_packages = false /\
      exists errno, e = OSError errno "dpkg"
  end.
Proof.
  destruct (check_dependencies_frame env w) as (H1 & H2 & H3 & H4).
  split; [exact H1 |]. split; [unfold store; now rewrite H2 |].
  split; [exact H3 | exact H4].
Qed.

(** ** setup_bluetooth *)

Ltac unfold_bt :=
  unfold bluetooth_configured, bt_checked, writable, spawns, exits_zero in *;
  cbn [forallb run_until_failure] in *.

Lemma setup_bluetooth_true_iff env w :
  fst (setup_bluetooth env w) = Returned true <->
  bluetooth_configured env (now w) = true.
Proof.
  unfold_bt. unfold setup_bluetooth. unfold_io. unfold_py. cbn.
  repeat env_case; split; intros H; simplify_eq;
    try reflexivity; try discriminate.
Qed.

(** setup_bluetooth returns True exactly when the stop command can be
    started, /tmp/bluetooth.conf can be written and the five commands run
    with check=True all exit with status zero; the exit status of the stop
    command itself is ignored.  On success three seconds have passed and
    /tmp/bluetooth.conf holds the configuration that names the service
    PiWiFiSetup. *)
Theorem setup_bluetooth_succeeds_iff env w :
  (fst (setup_bluetooth env w) = Returned true <->
   bluetooth_configured env (now w) = true) /\
  (bluetooth_configured env (now w) = true ->
   now (snd (setup_bluetooth env w)) = now w + 3 /\
   files (snd (setup_bluetooth env w)) !! bt_conf = Some bluetooth_config /\
   str_in "Name = PiWiFiSetup" bluetooth_config = true).
Proof.
  split; [apply setup_bluetooth_true_iff |].
  unfold_bt. unfold setup_bluetooth. unfold_io. unfold_py. cbn.
  repeat env_case; intros H; simplify_eq; try discriminate.
  split; [reflexivity |]. split; [| vm_compute; reflexivity].
  rewrite lookup_insert_eq. rewrite lookup_insert_eq. reflexivity.
Qed.

Lemma setup_bluetooth_succeeds_iff_witness :
  bluetooth_configured env_stop_fails (now w0) = true /\
  proc env_stop_fails (now w0) bt_stop_argv = Exited 5 "" /\
  fst (setup_bluetooth env_stop_fails w0) = Returned true.
Proof.
  assert (H : bluetooth_configured env_stop_fails (now w0) = true)
    by (vm_compute; reflexivity).
  split; [exact H |]. split; [vm_compute; reflexivity |].
  exact (proj2 (proj1 (setup_bluetooth_succeeds_iff env_stop_fails w0)) H).
Defined.

(** setup_bluetooth stops at the first checked command that fails.  The
    stop command is always attempted; the others are run in order, each
    only after the one before it has exited with status zero, and none of
    them when the stop command cannot be started or the configuration
    cannot be written. *)
Theorem setup_bluetooth_fail_fast env w :
  commands (new_events w (snd (setup_bluetooth env w))) =
    bt_stop_argv ::
    (if spawns (proc env (now w) bt_stop_argv) && writable env (now w) bt_conf
     then run_until_failure env (now w) bt_checked
     else []).
Proof.
  unfold_bt. unfold setup_bluetooth. unfold_io. unfold_py. cbn.
  repeat env_case; norm_events; reflexivity.
Qed.

Lemma setup_bluetooth_frame env w :
  connected_devices (snd (setup_bluetooth env w)) = connected_devices w /\
  (forall path, path ≠ bt_conf ->
     files (snd (setup_bluetooth env w)) !! path = files w !! path) /\
  now (snd (setup_bluetooth env w))
    = now w + (if bluetooth_configured env (now w) then 3 else 0) /\
  match fst (setup_bluetooth env w) with
  | Returned _ => True
  | Raised (OSError _ _) => True
  | Raised _ => False
  end.
Proof.
  unfold_bt. unfold setup_bluetooth. unfold_io. unfold_py. cbn.
  repeat env_case.
  all: split; [reflexivity |]; split; [| split; [cbn; lia | exact I]].
  all: intros path H1; rewrite ?lookup_insert_ne by congruence; reflexivity.
Qed.



(** ** setup_dbus *)

Lemma find_adapter_none objects current :
  Forall lacks_adapter objects -> find_adapter objects current = current.
Proof.
  induction 1 as [| [path interfaces] rest Hl _ IH]; [reflexivity |].
  cbn. unfold lacks_adapter in Hl. cbn in Hl. rewrite Hl.
  rewrite bool_decide_eq_false_2 by (intros [? ?]; discriminate). exact IH.
Qed.

Lemma find_adapter_first before path interfaces after current :
  Forall lacks_adapter before ->
  is_Some (interfaces !! "org.bluez.Adapter1") ->
  find_adapter (before ++ (path, interfaces) :: after) current = Some path.
Proof.
  intros Hb Hi. induction Hb as [| [p i] rest Hl _ IH]; cbn.
  - now rewrite bool_decide_eq_true_2.
  - unfold lacks_adapter in Hl. cbn in Hl. rewrite Hl.
    rewrite bool_decide_eq_false_2 by (intros [? ?]; discriminate). exact IH.
Qed.

(** setup_dbus takes as adapter the first managed object, in the order
    GetManagedObjects lists them, that has the interface
    org.bluez.Adapter1, and then returns True with the bus and the main
    loop set.  When no object has the interface, self.adapter keeps the
    value it had: from a new object (None) the result is False. *)
Theorem setup_dbus_picks_first_adapter host h w objects :
  bus_outcome host = Objects objects ->
  (forall before path interfaces after,
     objects = before ++ (path, interfaces) :: after ->
     Forall lacks_adapter before ->
     is_Some (interfaces !! "org.bluez.Adapter1") ->
     path ≠ "" ->
     fst (setup_dbus host h w)
       = Returned (true, mkHandles true true (Some path))) /\
  (Forall lacks_adapter objects ->
   fst (setup_dbus host h w)
     = Returned (truthy_get (adapter h), mkHandles true true (adapter h))) /\
  (Forall lacks_adapter objects ->
   fst (setup_dbus host no_handles w)
     = Returned (false, mkHandles true true None)).
Proof.
  intros Hbus. unfold setup_dbus. rewrite Hbus. cbn [adapter].
  assert (Hnone : Forall lacks_adapter objects ->
    fst ((if negb (truthy_get (find_adapter objects (adapter h)))
          then logger_error "No Bluetooth adapter found" None ;;
               mret (false, mkHandles true true (find_adapter objects (adapter h)))
          else logger_info "D-Bus connection established" ;;
               mret (true, mkHandles true true (find_adapter objects (adapter h))))
           w)
    = Returned (truthy_get (adapter h), mkHandles true true (adapter h))).
  { intros Hl. rewrite (find_adapter_none _ _ Hl).
    destruct (truthy_get (adapter h)); reflexivity. }
  split; [| split; [exact Hnone |]].
  - intros before path interfaces after -> Hb Hi Hp.
    rewrite (find_adapter_first _ _ _ _ _ Hb Hi). cbn.
    apply truthy_str_spec in Hp. rewrite Hp. reflexivity.
  - intros Hl. rewrite (find_adapter_none _ _ Hl). reflexivity.
Qed.

Lemma setup_dbus_picks_first_adapter_witness :
  bus_outcome host_ok = Objects bluez_objects /\
  fst (setup_dbus host_ok no_handles w0)
    = Returned (true, mkHandles true true (Some "/org/bluez/hci0")).
Proof.
  assert (Hbus : bus_outcome host_ok = Objects bluez_objects) by reflexivity.
  split; [exact Hbus |].
  apply (proj1 (setup_dbus_picks_first_adapter host_ok no_handles w0
                  bluez_objects Hbus)
           [("/org/bluez", <["org.bluez.AgentManager1" := ∅]> ∅)]
           "/org/bluez/hci0" (<["org.bluez.Adapter1" := ∅]> ∅)
           [("/org/bluez/hci1", <["org.bluez.Adapter1" := ∅]> ∅)]).
  - reflexivity.
  - constructor; [vm_compute; reflexivity | constructor].
  - exists ∅. vm_compute. reflexivity.
  - discriminate.
Defined.

(** ** run and main *)

Lemma exits_zero_spawns o : exits_zero o = true -> spawns o = true.
Proof. destruct o; cbn; auto. Qed.

Lemma deps_installed_spawns env t :
  deps_installed env t = true ->
  forallb (fun p => spawns (proc env t (dpkg_argv p))) required_packages = true.
Proof.
  unfold deps_installed. generalize required_packages as l.
  induction l as [| p l IH]; [reflexivity |]. cbn.
  intros H. apply andb_true_iff in H as [H1 H2].
  rewrite (exits_zero_spawns _ H1). cbn. auto.
Qed.

Lemma check_dependencies_result env w :
  match fst (check_dependencies env w) with
  | Returned b => b = deps_installed env (now w)
  | Raised e =>
      deps_installed env (now w) = false /\ exists errno, e = OSError errno "dpkg"
  end.
Proof.
  destruct (check_dependencies_frame env w) as (_ & _ & _ & H).
  destruct (forallb (fun p => spawns (proc env (now w) (dpkg_argv p)))
              required_packages) eqn:Hs.
  - rewrite (proj1 (check_dependencies_spec env w Hs)). reflexivity.
  - destruct (fst (check_dependencies env w)) as [b | e]; [discriminate |].
    destruct H as (_ & Hex). split; [| exact Hex].
    destruct (deps_installed env (now w)) eqn:Hd; [| reflexivity].
    apply deps_installed_spawns in Hd. congruence.
Qed.

Lemma stub_errors_only device_path device_name :
  errors_only (simulate_credential_extraction device_path device_name).
Proof. intros w e w' H. rewrite simulate_returns_None in H. discriminate H. Qed.

Lemma run_result env host w :
  fst (run env host w) =
    Returned (Some (deps_installed env (now w)
                    && bluetooth_configured env (now w)
                    && adapter_found host && subscribed host)).
Proof.
  unfold run, run_with, try_except2.
  unfold mbind at 1 2. unfold M_bind, bind at 1 2. unfold logger_info at 1 2.
  set (w2 := emit _ (emit _ w)).
  pose proof (check_dependencies_result env w2) as Hd.
  destruct (check_dependencies_frame env w2) as (_ & _ & Hnow & _).
  change (now w2) with (now w) in Hd, Hnow.
  unfold mbind at 1. unfold M_bind, bind at 1.
  destruct (check_dependencies env w2) as [[deps | e] w3];
    cbn [fst snd] in Hd, Hnow.
  2: { destruct Hd as (-> & errno & ->). reflexivity. }
  subst deps. destruct (deps_installed env (now w)); [| reflexivity].
  cbn [negb andb].
  pose proof (setup_bluetooth_true_iff env w3) as Hb.
  destruct (setup_bluetooth_frame env w3) as (_ & _ & _ & Hbr).
  rewrite Hnow in Hb.
  unfold mbind at 1. unfold M_bind, bind at 1.
  destruct (setup_bluetooth env w3) as [[bt | e] w4]; cbn [fst snd] in Hb, Hbr.
  2: { destruct e; try contradiction.
       destruct (bluetooth_configured env (now w)); [| reflexivity].
       destruct Hb as [_ Hb]. discriminate (Hb eq_refl). }
  destruct bt.
  2: { destruct (bluetooth_configured env (now w)); [| reflexivity].
       destruct Hb as [_ Hb]. discriminate (Hb eq_refl). }
  rewrite (proj1 Hb eq_refl). cbn [negb andb].
  unfold setup_dbus, adapter_found, subscribed, setup_bluetooth_monitoring,
    mainloop_run.
  destruct (bus_outcome host) as [msg | msg | objects]; try reflexivity.
  cbn [adapter no_handles].
  destruct (truthy_get (find_adapter objects None)); [| reflexivity].
  unfold_py. cbn.
  destruct (receiver_fault host) as [msg |]; [reflexivity |]. cbn.
  match goal with
  | |- context [dispatch env simulate_credential_extraction ?s ?w5] =>
      destruct (dispatch_returns env simulate_credential_extraction s
                  stub_errors_only w5) as ([] & w6 & Hdisp)
  end.
  rewrite Hdisp. reflexivity.
Qed.



Lemma check_packages_trace env packages : forall missing w,
  exists k,
    trace (snd (check_packages env packages missing w))
      = trace w ++ map (fun p => EvRun (dpkg_argv p)) (take k packages).
Proof.
  induction packages as [| p rest IH]; intros missing w.
  - exists 0%nat. cbn. now rewrite app_nil_r.
  - cbn [check_packages]. unfold subprocess_run. unfold_py.
    destruct (proc env (now w) (dpkg_argv p)) as [rc out |]; cbn.
    + destruct (rc =? 0)%Z; cbn;
        match goal with
        | |- context [check_packages env rest ?m ?w1] =>
            destruct (IH m w1) as (k & Hk)
        end; exists (S k); rewrite Hk; cbn; now rewrite <- app_assoc.
    + exists 1%nat. reflexivity.
Qed.

Lemma new_events_app w w' evs :
  trace w' = trace w ++ evs -> new_events w w' = evs.
Proof. intros H. unfold new_events. rewrite H. apply drop_app_length. Qed.

Lemma commands_dpkg (l : list string) :
  commands (map (fun p => EvRun (dpkg_argv p)) l) = map dpkg_argv l.
Proof. induction l as [| a l IH]; [reflexivity |]. cbn. now rewrite IH. Qed.

Lemma check_dependencies_trace env w :
  exists k logs,
    trace (snd (check_dependencies env w))
      = trace w ++ map (fun p => EvRun (dpkg_argv p)) (take k required_packages)
        ++ logs /\ commands logs = [].
Proof.
  unfold check_dependencies. unfold mbind, M_bind, bind.
  destruct (check_packages_trace env required_packages [] w) as (k & Hk).
  destruct (check_packages env required_packages [] w)
    as [[missing | e] w3]; cbn [snd] in Hk.
  - destruct missing; unfold_py; cbn [snd trace emit]; rewrite Hk.
    + exists k, []. now rewrite app_nil_r.
    + eexists k, [_; _]. rewrite <- !app_assoc. split; reflexivity.
  - exists k, []. cbn [snd]. now rewrite app_nil_r.
Qed.

(** When a required package is missing, or dpkg cannot be started, run
    goes no further than the dependency check: the only commands it runs
    are dpkg queries for a leading part of the package list, it never
    sleeps, and the credential store is left as it is. *)
Theorem run_stops_at_missing_dependency env host w :
  deps_installed env (now w) = false ->
  store (snd (run env host w)) = store w /\
  now (snd (run env host w)) = now w /\
  exists k,
    commands (new_events w (snd (run env host w)))
      = map dpkg_argv (take k required_packages).
Proof.
  intros Hdeps.
  set (w2 := emit (EvLog INFO
                     "Just connect your phone via Bluetooth - no manual steps needed!"
                     None)
               (emit (EvLog INFO
                        "Starting Auto Bluetooth WiFi Credential Sharer..." None)
                  w)).
  assert (Hrun : exists msg exc,
            run env host w
            = (Returned (Some false),
               emit (EvLog ERROR msg exc) (snd (check_dependencies env w2)))).
  { unfold run, run_with, try_except2.
    unfold mbind at 1 2. unfold M_bind, bind at 1 2. unfold logger_info at 1 2.
    fold w2.
    pose proof (check_dependencies_result env w2) as Hd.
    change (now w2) with (now w) in Hd.
    unfold mbind at 1. unfold M_bind, bind at 1.
    destruct (check_dependencies env w2) as [[deps | e] w3]; cbn [fst snd] in *.
    - subst deps. rewrite Hdeps. cbn. eauto.
    - destruct Hd as (_ & errno & ->). cbn. eauto. }
  destruct Hrun as (msg & exc & Hrun). rewrite Hrun. cbn [fst snd].
  destruct (check_dependencies_frame env w2) as (_ & Hfiles & Hnow & _).
  destruct (check_dependencies_trace env w2) as (k & logs & Htr & Hlogs).
  split; [unfold store; cbn [files emit]; now rewrite Hfiles |].
  split; [exact Hnow |].
  exists k. erewrite new_events_app.
  2: { cbn [trace emit]. rewrite Htr. subst w2. cbn [trace emit].
       rewrite <- !app_assoc. reflexivity. }
  rewrite !commands_app, commands_dpkg, Hlogs. cbn [commands app].
  rewrite ?app_nil_r. reflexivity.
Qed.

Lemma run_stops_at_missing_dependency_witness :
  deps_installed env_missing_gi (now w_old) = false /\
  store (snd (run env_missing_gi host_ok w_old)) = Some old_record /\
  commands (new_events w_old (snd (run env_missing_gi host_ok w_old)))
    = map dpkg_argv required_packages.
Proof.
  assert (H : deps_installed env_missing_gi (now w_old) = false)
    by (vm_compute; reflexivity).
  destruct (run_stops_at_missing_dependency env_missing_gi host_ok w_old H)
    as (Hs & _ & _).
  split; [exact H |]. split.
  - rewrite Hs. vm_compute. reflexivity.
  - vm_compute. reflexivity.
Defined.

(** Started by a user other than root, main logs one line and exits
    with status 1 without running any command.  Started as root with all
    four set-up steps succeeding, it exits with status 0.  Status 0 is
    never reached by another user. *)
Theorem main_exit_status env host w :
  (euid host ≠ 0 ->
   main env host w =
     (Raised (SystemExit 1),
      emit (EvLog ERROR "This script must be run as root (use sudo)" None) w)) /\
  (euid host = 0 ->
   deps_installed env (now w) && bluetooth_configured env (now w)
   && adapter_found host && subscribed host = true ->
   fst (main env host w) = Raised (SystemExit 0)) /\
  (fst (main env host w) = Raised (SystemExit 0) -> euid host = 0).
Proof.
  unfold main. destruct (euid host =? 0)%Z eqn:He; cbn [negb].
  - apply Z.eqb_eq in He.
    split; [intros Hne; contradiction |]. split; [| intros _; exact He].
    intros _ Hok.
    unfold new_sharer, sys_exit. unfold mbind at 1 2. unfold M_bind, bind at 1 2.
    pose proof (run_result env host (set_devices ∅ w)) as Hr.
    change (now (set_devices ∅ w)) with (now w) in Hr.
    rewrite Hok in Hr.
    destruct (run env host (set_devices ∅ w)) as [r w1]. cbn [fst] in Hr.
    subst r. reflexivity.
  - apply Z.eqb_neq in He.
    split; [intros _; reflexivity |]. split; [intros H; contradiction |].
    intros H. discriminate H.
Qed.

Lemma main_exit_status_witness :
  euid host_user ≠ 0 /\
  main env_ok host_user w0 =
    (Raised (SystemExit 1),
     emit (EvLog ERROR "This script must be run as root (use sudo)" None) w0).
Proof.
  assert (H : euid host_user ≠ 0) by discriminate.
  split; [exact H |].
  exact (proj1 (main_exit_status env_ok host_user w0) H).
Defined.

(** ** What is written: the configuration and the store *)

Lemma append_assoc (a b c : string) : (a +:+ b) +:+ c = a +:+ (b +:+ c).
Proof.
  induction a as [| x a IH]; [reflexivity |].
  exact (f_equal (String x) IH).
Qed.

Lemma length_append (a b : string) :
  String.length (a +:+ b) = (String.length a + String.length b)%nat.
Proof.
  induction a as [| x a IH]; [reflexivity |].
  exact (f_equal S IH).
Qed.

Lemma append_inj_l (a x y : string) : a +:+ x = a +:+ y -> x = y.
Proof.
  induction a as [| c a IH]; [auto |]. intros H. apply IH.
  now injection H.
Qed.

Lemma read_escape_char c t :
  read_string (escape_char c +:+ t) =
    match read_string t with
    | Some (v, r) => Some (String c v, r)
    | None => None
    end.
Proof. destruct c as [[] [] [] [] [] [] [] []]; reflexivity. Qed.

Lemma read_escape_str s : forall r,
  read_string (escape_str s +:+ dq +:+ r) = Some (s, r).
Proof.
  induction s as [| c s IH]; intros r; [reflexivity |].
  cbn [escape_str]. rewrite append_assoc, read_escape_char, IH. reflexivity.
Qed.

Lemma json_record_text ssid password :
  json_dumps (credentials_dict ssid password) =
    ("{" +:+ dq +:+ "ssid" +:+ dq +:+ ": " +:+ dq) +:+
    escape_str ssid +:+ dq +:+
    (", " +:+ dq +:+ "password" +:+ dq +:+ ": " +:+ dq) +:+
    escape_str password +:+ dq +:+ "}".
Proof.
  unfold json_dumps, credentials_dict, json_items, json_value,
    py_encode_basestring_ascii.
  cbn. rewrite ?append_assoc. cbn. rewrite ?append_assoc. reflexivity.
Qed.

(** The store determines the credentials: two pairs of ssid and password
    that json.dump writes as the same text are the same pair, whatever
    quotes, backslashes or control characters they contain. *)
Theorem json_record_injective ssid password ssid' password' :
  json_dumps (credentials_dict ssid password)
    = json_dumps (credentials_dict ssid' password') ->
  ssid = ssid' /\ password = password'.
Proof.
  rewrite !json_record_text. intros H. apply append_inj_l in H.
  apply (f_equal read_string) in H. rewrite !read_escape_str in H.
  injection H as Hs H. split; [exact Hs |].
  apply append_inj_l in H.
  apply (f_equal read_string) in H. rewrite !read_escape_str in H.
  now injection H.
Qed.

Lemma json_record_injective_witness :
  json_dumps (credentials_dict "HomeNet" "s3cret123")
    = json_dumps (credentials_dict "HomeNet" "s3cret123") /\
  "HomeNet" = "HomeNet" /\ "s3cret123" = "s3cret123".
Proof.
  assert (H : json_dumps (credentials_dict "HomeNet" "s3cret123")
              = json_dumps (credentials_dict "HomeNet" "s3cret123"))
    by reflexivity.
  split; [exact H |].
  exact (json_record_injective "HomeNet" "s3cret123" "HomeNet" "s3cret123" H).
Defined.

Lemma printable_app a b : printable (a +:+ b) = printable a && printable b.
Proof.
  induction a as [| x a IH]; [reflexivity |].
  change (printable (String x a +:+ b))
    with ((32 <=? N_of_ascii x)%N && (N_of_ascii x <=? 126)%N
          && printable (a +:+ b)).
  rewrite IH. cbn [printable]. now rewrite !andb_assoc.
Qed.

Lemma escape_char_printable c : printable (escape_char c) = true.
Proof. destruct c as [[] [] [] [] [] [] [] []]; reflexivity. Qed.

Lemma escape_str_printable s : printable (escape_str s) = true.
Proof.
  induction s as [| c s IH]; [reflexivity |]. cbn [escape_str].
  now rewrite printable_app, escape_char_printable, IH.
Qed.

(** Whatever the ssid and the password contain, the text written to the
    store consists of printable ASCII characters only: it is one line,
    without control characters. *)
Theorem json_record_printable ssid password :
  printable (json_dumps (credentials_dict ssid password)) = true.
Proof.
  rewrite json_record_text.
  rewrite !printable_app, !escape_str_printable. reflexivity.
Qed.

(** The wpa_supplicant configuration takes the ssid and the password as
    they are, without escaping: a password that contains the text between
    the two fields gives the same file as a longer ssid with the rest as
    password.  Different credentials can thus write the same
    configuration. *)
Theorem wpa_config_ambiguous a b c :
  wpa_config a (b +:+ psk_separator +:+ c)
    = wpa_config (a +:+ psk_separator +:+ b) c /\
  (a, b +:+ psk_separator +:+ c) ≠ (a +:+ psk_separator +:+ b, c).
Proof.
  split.
  - unfold wpa_config, psk_separator.
    rewrite ?append_assoc. cbn. rewrite ?append_assoc. reflexivity.
  - intros H. injection H as H _.
    apply (f_equal String.length) in H. rewrite !length_append in H.
    change (String.length psk_separator) with 11%nat in H. lia.
Qed.

(** ** Delivering notifications *)

Lemma on_device_connected_clock env path interfaces w :
  now (snd (on_device_connected env path interfaces w)) =
    now w + (if bool_decide (is_Some (interfaces !! "org.bluez.Device1"))
             then 2 else 0).
Proof.
  unfold on_device_connected, on_device_connected_with.
  destruct (interfaces !! "org.bluez.Device1") as [device |] eqn:E.
  - rewrite bool_decide_eq_true_2 by eauto. unfold_py.
    pose proof (extract_stub env path
                  (default "Unknown Device" (device !! "Name"))) as Hx.
    unfold extract_wifi_credentials in Hx. rewrite Hx. reflexivity.
  - rewrite bool_decide_eq_false_2 by (intros [? ?]; discriminate).
    cbn. lia.
Qed.

Lemma deliver_stub env s w :
  fst (deliver env simulate_credential_extraction s w) = Returned tt /\
  now (snd (deliver env simulate_credential_extraction s w))
    = now w + (if is_device_added s then 2 else 0) /\
  (forall p,
     bool_decide (p ∈ connected_devices
                        (snd (deliver env simulate_credential_extraction s w)))
     = default (bool_decide (p ∈ connected_devices w)) (tracks p s)).
Proof.
  destruct s as [path interfaces | path interfaces]; cbn [deliver].
  - destruct (on_device_connected_stub env path interfaces w)
      as (Hr & Hd & _).
    pose proof (on_device_connected_clock env path interfaces w) as Hc.
    unfold on_device_connected in *. cbn zeta in Hr, Hd.
    split; [exact Hr |]. split; [exact Hc |].
    intros p. rewrite Hd. cbn [tracks].
    destruct (interfaces !! "org.bluez.Device1") as [device |].
    + rewrite (bool_decide_eq_true_2 (is_Some (Some device))) by eauto.
      rewrite andb_true_r.
      destruct (decide (path = p)) as [-> | Hne].
      * rewrite (bool_decide_eq_true_2 (p = p)) by reflexivity. cbn.
        apply bool_decide_eq_true_2, elem_of_union_l, elem_of_singleton.
        reflexivity.
      * rewrite (bool_decide_eq_false_2 (path = p)) by exact Hne. cbn.
        apply bool_decide_ext. rewrite elem_of_union, elem_of_singleton.
        split; [intros [-> | H]; [contradiction | exact H] | auto].
    + rewrite (bool_decide_eq_false_2 (is_Some None))
        by (intros [? ?]; discriminate).
      rewrite andb_false_r. reflexivity.
  - destruct (decide (path ∈ connected_devices w)) as [Hin | Hout].
    + rewrite (disconnect_present _ _ _ Hin). cbn.
      split; [reflexivity |]. split; [lia |].
      intros p. destruct (decide (path = p)) as [-> | Hne].
      * rewrite (bool_decide_eq_true_2 (p = p)) by reflexivity. cbn.
        apply bool_decide_eq_false_2.
        rewrite elem_of_difference, elem_of_singleton. tauto.
      * rewrite (bool_decide_eq_false_2 (path = p)) by exact Hne. cbn.
        apply bool_decide_ext.
        rewrite elem_of_difference, elem_of_singleton.
        split; [tauto |]. intros H. split; [exact H | congruence].
    + rewrite (disconnect_absent _ _ _ Hout). cbn.
      split; [reflexivity |]. split; [lia |].
      intros p. destruct (decide (path = p)) as [-> | Hne].
      * rewrite (bool_decide_eq_true_2 (p = p)) by reflexivity. cbn.
        apply bool_decide_eq_false_2, Hout.
      * rewrite (bool_decide_eq_false_2 (path = p)) by exact Hne. reflexivity.
Qed.

(** After any sequence of notifications a path is tracked exactly when
    the last notification about it was the arrival of a device (an
    InterfacesAdded that carries org.bluez.Device1), or when it was
    tracked before and no notification concerned it; an InterfacesRemoved
    for the path untracks it whatever interfaces it names. *)
Theorem dispatch_tracked_set env p : forall signals w,
  bool_decide (p ∈ connected_devices
                     (snd (dispatch env simulate_credential_extraction signals w)))
  = tracked_after p signals (bool_decide (p ∈ connected_devices w)).
Proof.
  induction signals as [| s rest IH]; intros w; [reflexivity |].
  cbn [dispatch]. unfold mbind, M_bind, bind.
  destruct (deliver_stub env s w) as (Hr & _ & Ht).
  destruct (deliver env simulate_credential_extraction s w) as [r w1].
  cbn [fst snd] in Hr, Ht. subst r.
  rewrite IH, Ht. reflexivity.
Qed.

(** The handlers block the loop: with the extraction stub of the source,
    delivering a sequence of notifications takes two seconds for every
    device arrival in it and no time for the other notifications. *)
Theorem dispatch_takes_two_seconds_per_device env : forall signals w,
  now (snd (dispatch env simulate_credential_extraction signals w))
    = now w + 2 * Z.of_nat (length (List.filter is_device_added signals)).
Proof.
  induction signals as [| s rest IH]; intros w; [cbn; lia |].
  cbn [dispatch]. unfold mbind, M_bind, bind.
  destruct (deliver_stub env s w) as (Hr & Hc & _).
  destruct (deliver env simulate_credential_extraction s w) as [r w1].
  cbn [fst snd] in Hr, Hc. subst r.
  rewrite IH, Hc. cbn [List.filter].
  destruct (is_device_added s); cbn [length]; lia.
Qed.

(** Notifications about objects that are not devices have no effect
    whatever, for any extraction method: removing every InterfacesAdded
    without org.bluez.Device1 from a sequence changes neither the result
    nor the world the delivery ends in. *)
Theorem dispatch_ignores_other_objects env (sim : Extractor) : forall signals w,
  dispatch env sim (List.filter (fun s => negb (is_ignored s)) signals) w
    = dispatch env sim signals w.
Proof.
  induction signals as [| s rest IH]; intros w; [reflexivity |].
  cbn [List.filter]. destruct (is_ignored s) eqn:Hi; cbn [negb].
  - rewrite IH. cbn [dispatch]. unfold mbind, M_bind, bind.
    destruct s as [path interfaces | path interfaces]; [| discriminate Hi].
    cbn [deliver is_ignored] in *. unfold on_device_connected_with.
    destruct (interfaces !! "org.bluez.Device1") as [device |] eqn:E.
    + rewrite bool_decide_eq_true_2 in Hi by eauto. discriminate Hi.
    + reflexivity.
  - cbn [dispatch]. unfold mbind, M_bind, bind.
    destruct (deliver env sim s w) as [[[] | e] w1]; [apply IH | reflexivity].
Qed.
